(** * The Proton acquisition pipeline of umu_proton.py

    A shallow embedding of [src/umu/umu_proton.py]: the release client
    ([_fetch_releases]), the archive fetcher with its digest check
    ([_fetch_proton]), extraction, the store updater ([_get_latest],
    [_update_proton], [_cleanup]), the fallback selector
    ([_get_from_steamcompat]) and the entry point ([get_umu_proton]).

    Python strings are [string] (one character per element), byte payloads
    are [list byte], dictionaries and directories are [gmap]s keyed by
    name.  Effects are threaded through a state-and-exception monad over a
    [World]; everything outside the process (the network, the download
    helper, the contents of an archive) is a field of a [Remote] record. *)

From Stdlib Require Import ZArith Ascii String Strings.Byte.
From stdpp Require Import base gmap strings list.

Local Open Scope Z_scope.

(** ** Python string methods used by the module *)

Module Py.

Fixpoint startswith (s p : string) : bool :=
  match p, s with
  | EmptyString, _ => true
  | String _ _, EmptyString => false
  | String a p', String b s' => Ascii.eqb a b && startswith s' p'
  end.

Fixpoint take (n : nat) (s : string) : string :=
  match n, s with
  | O, _ => EmptyString
  | S _, EmptyString => EmptyString
  | S n', String a s' => String a (take n' s')
  end.

Fixpoint drop (n : nat) (s : string) : string :=
  match n, s with
  | O, _ => s
  | S _, EmptyString => EmptyString
  | S n', String _ s' => drop n' s'
  end.

(** [s.endswith(p)]: the last [len(p)] characters of [s] are [p]. *)
Definition endswith (s p : string) : bool :=
  (String.length p <=? String.length s)%nat
  && String.eqb (drop (String.length s - String.length p) s) p.

(** [s.find(sub)]: index of the first occurrence, [-1] when there is none. *)
Fixpoint find_from (i : Z) (s sub : string) : Z :=
  if startswith s sub then i
  else match s with
       | EmptyString => -1
       | String _ s' => find_from (i + 1) s' sub
       end.

Definition find (s sub : string) : Z := find_from 0 s sub.

(** [s[:i]], with Python's treatment of a negative bound. *)
Definition slice_to (s : string) (i : Z) : string :=
  if i <? 0
  then take (Z.to_nat (Z.max 0 (Z.of_nat (String.length s) + i))) s
  else take (Z.to_nat i) s.

(** Truthiness of [d.get(k)] for a string-valued entry. *)
Definition truthy (o : option string) : bool :=
  match o with
  | Some (String _ _) => true
  | _ => false
  end.

End Py.

(** ** Exceptions and results *)

(** What a [ValueError] of this module is about. *)
Inductive value_error :=
| SchemeNotHttps (urls : list string)
| DigestsMismatched (proton : string).

(** The exception classes that the module raises, catches, or lets through.
    [UnicodeDecodeError] is a subclass of [ValueError], [IncompleteRead] of
    [HTTPException], [HTTPError] of [URLError], and [URLError],
    [FileNotFoundError] of [OSError]. *)
Inductive exn :=
| ValueError (what : value_error)
| UnicodeDecodeError
| KeyboardInterrupt
| HTTPException (status : Z)
| IncompleteRead
| URLError
| HTTPError (status : Z)
| OSError
| FileNotFoundError
| RuntimeError
| IndexError
| ReadError.

Definition is_ValueError (e : exn) : bool :=
  match e with ValueError _ | UnicodeDecodeError => true | _ => false end.

Definition is_KeyboardInterrupt (e : exn) : bool :=
  match e with KeyboardInterrupt => true | _ => false end.

Definition is_HTTPException (e : exn) : bool :=
  match e with HTTPException _ | IncompleteRead => true | _ => false end.

Definition is_URLError (e : exn) : bool :=
  match e with URLError | HTTPError _ => true | _ => false end.

Inductive result (A : Type) :=
| Ret (a : A)
| Raise (e : exn).
Arguments Ret {A} a.
Arguments Raise {A} e.

(** ** The release index *)

(** One element of a release's ["assets"] array, read with [asset.get]. *)
Record asset := Asset {
  name : option string;
  browser_download_url : option string;
}.

(** One release object; [assets] is [release.get("assets")]. *)
Record release := Release {
  assets : option (list asset);
}.

(** The condition of the [if] at lines 105-117. *)
Definition qualifies (a : asset) : bool :=
  match name a with
  | Some n =>
      Py.truthy (Some n)
      && (Py.endswith n "sum"
          || (Py.endswith n "tar.gz"
              && (Py.startswith n "UMU-Proton" || Py.startswith n "GE-Proton")))
      && Py.truthy (browser_download_url a)
  | None => false
  end.

Definition asset_pair (a : asset) : string * string :=
  (default "" (name a), default "" (browser_download_url a)).

(** The inner [for asset in release.get("assets")] loop with its
    [if len(files) == 2: break]. *)
Fixpoint scan_assets (l : list asset) (files : list (string * string))
  : list (string * string) :=
  match l with
  | [] => files
  | a :: rest =>
      let files' :=
        if qualifies a then
          if Py.endswith (default "" (name a)) "sum"
          then files ++ [asset_pair a]
          else files ++ [asset_pair a]
        else files in
      if (length files' =? 2)%nat then files' else scan_assets rest files'
  end.

(** The outer [for release in ...] loop: releases without assets are
    skipped, the first one with assets is scanned, then [break]. *)
Fixpoint scan_releases (rs : list release) (files : list (string * string))
  : list (string * string) :=
  match rs with
  | [] => files
  | r :: rest =>
      match assets r with
      | None | Some [] => scan_releases rest files
      | Some l => scan_assets l files
      end
  end.

(** ** hashlib.sha512

    The digest that [hash.update] and [hash.hexdigest] compute (FIPS 180-4,
    SHA-512), on 64-bit words held in [Z] with the wrap-around written out. *)

Module Sha512.

Definition wrap (x : Z) : Z := x mod 2 ^ 64.
Definition add64 (x y : Z) : Z := wrap (x + y).
Definition rotr (n x : Z) : Z :=
  Z.lor (Z.shiftr x n) (wrap (Z.shiftl x (64 - n))).

Definition Ch (x y z : Z) : Z :=
  Z.lxor (Z.land x y) (Z.land (Z.lnot x) z).
Definition Maj (x y z : Z) : Z :=
  Z.lxor (Z.lxor (Z.land x y) (Z.land x z)) (Z.land y z).
Definition Sigma0 (x : Z) : Z :=
  Z.lxor (Z.lxor (rotr 28 x) (rotr 34 x)) (rotr 39 x).
Definition Sigma1 (x : Z) : Z :=
  Z.lxor (Z.lxor (rotr 14 x) (rotr 18 x)) (rotr 41 x).
Definition sigma0 (x : Z) : Z :=
  Z.lxor (Z.lxor (rotr 1 x) (rotr 8 x)) (Z.shiftr x 7).
Definition sigma1 (x : Z) : Z :=
  Z.lxor (Z.lxor (rotr 19 x) (rotr 61 x)) (Z.shiftr x 6).

Definition K : list Z :=
  [ 0x428a2f98d728ae22; 0x7137449123ef65cd; 0xb5c0fbcfec4d3b2f;
    0xe9b5dba58189dbbc; 0x3956c25bf348b538; 0x59f111f1b605d019;
    0x923f82a4af194f9b; 0xab1c5ed5da6d8118; 0xd807aa98a3030242;
    0x12835b0145706fbe; 0x243185be4ee4b28c; 0x550c7dc3d5ffb4e2;
    0x72be5d74f27b896f; 0x80deb1fe3b1696b1; 0x9bdc06a725c71235;
    0xc19bf174cf692694; 0xe49b69c19ef14ad2; 0xefbe4786384f25e3;
    0x0fc19dc68b8cd5b5; 0x240ca1cc77ac9c65; 0x2de92c6f592b0275;
    0x4a7484aa6ea6e483; 0x5cb0a9dcbd41fbd4; 0x76f988da831153b5;
    0x983e5152ee66dfab; 0xa831c66d2db43210; 0xb00327c898fb213f;
    0xbf597fc7beef0ee4; 0xc6e00bf33da88fc2; 0xd5a79147930aa725;
    0x06ca6351e003826f; 0x142929670a0e6e70; 0x27b70a8546d22ffc;
    0x2e1b21385c26c926; 0x4d2c6dfc5ac42aed; 0x53380d139d95b3df;
    0x650a73548baf63de; 0x766a0abb3c77b2a8; 0x81c2c92e47edaee6;
    0x92722c851482353b; 0xa2bfe8a14cf10364; 0xa81a664bbc423001;
    0xc24b8b70d0f89791; 0xc76c51a30654be30; 0xd192e819d6ef5218;
    0xd69906245565a910; 0xf40e35855771202a; 0x106aa07032bbd1b8;
    0x19a4c116b8d2d0c8; 0x1e376c085141ab53; 0x2748774cdf8eeb99;
    0x34b0bcb5e19b48a8; 0x391c0cb3c5c95a63; 0x4ed8aa4ae3418acb;
    0x5b9cca4f7763e373; 0x682e6ff3d6b2b8a3; 0x748f82ee5defb2fc;
    0x78a5636f43172f60; 0x84c87814a1f0ab72; 0x8cc702081a6439ec;
    0x90befffa23631e28; 0xa4506cebde82bde9; 0xbef9a3f7b2c67915;
    0xc67178f2e372532b; 0xca273eceea26619c; 0xd186b8c721c0c207;
    0xeada7dd6cde0eb1e; 0xf57d4f7fee6ed178; 0x06f067aa72176fba;
    0x0a637dc5a2c898a6; 0x113f9804bef90dae; 0x1b710b35131c471b;
    0x28db77f523047d84; 0x32caab7b40c72493; 0x3c9ebe0a15c9bebc;
    0x431d67c49c100d4c; 0x4cc5d4becb3e42b6; 0x597f299cfc657e2a;
    0x5fcb6fab3ad6faec; 0x6c44198c4a475817 ].

Definition H0 : list Z :=
  [ 0x6a09e667f3bcc908; 0xbb67ae8584caa73b; 0x3c6ef372fe94f82b;
    0xa54ff53a5f1d36f1; 0x510e527fade682d1; 0x9b05688c2b3e6c1f;
    0x1f83d9abfb41bd6b; 0x5be0cd19137e2179 ].

(** Message padding: a [0x80] byte, zeros, and the bit length on 128 bits,
    up to a multiple of 128 bytes. *)
Fixpoint be_bytes (n : nat) (x : Z) : list Z :=
  match n with
  | O => []
  | S n' => Z.shiftr x (8 * Z.of_nat n') mod 256 :: be_bytes n' x
  end.

Definition pad (msg : list Z) : list Z :=
  let len := Z.of_nat (length msg) in
  let zeros := Z.to_nat ((111 - len) mod 128) in
  msg ++ [128] ++ replicate zeros 0 ++ be_bytes 16 (8 * len).

Definition be_word (bs : list Z) : Z :=
  fold_left (fun acc b => acc * 256 + b) bs 0.

(** Cut a list into pieces of [n] elements. *)
Fixpoint pieces {A} (fuel n : nat) (l : list A) : list (list A) :=
  match fuel, l with
  | O, _ | _, [] => []
  | S fuel', _ => take n l :: pieces fuel' n (drop n l)
  end.

Definition word_at (w : list Z) (t : nat) : Z := nth t w 0.

(** The message schedule: 16 block words extended to 80. *)
Fixpoint expand (n : nat) (w : list Z) : list Z :=
  match n with
  | O => w
  | S n' =>
      let t := length w in
      expand n'
        (w ++ [add64 (add64 (sigma1 (word_at w (t - 2))) (word_at w (t - 7)))
                     (add64 (sigma0 (word_at w (t - 15))) (word_at w (t - 16)))])
  end.

Record regs := Regs { ra : Z; rb : Z; rc : Z; rd : Z;
                      re : Z; rf : Z; rg : Z; rh : Z }.

Definition round (r : regs) (kw : Z * Z) : regs :=
  let '(k, w) := kw in
  let t1 := add64 (add64 (add64 (rh r) (Sigma1 (re r)))
                         (add64 (Ch (re r) (rf r) (rg r)) k)) w in
  let t2 := add64 (Sigma0 (ra r)) (Maj (ra r) (rb r) (rc r)) in
  Regs (add64 t1 t2) (ra r) (rb r) (rc r) (add64 (rd r) t1) (re r) (rf r) (rg r).

Definition regs_of (h : list Z) : regs :=
  Regs (word_at h 0) (word_at h 1) (word_at h 2) (word_at h 3)
       (word_at h 4) (word_at h 5) (word_at h 6) (word_at h 7).

Definition compress (h : list Z) (block : list Z) : list Z :=
  let w := expand 64 (be_word <$> pieces 16 8 block) in
  let r := fold_left round (zip K w) (regs_of h) in
  zip_with add64 h [ra r; rb r; rc r; rd r; re r; rf r; rg r; rh r].

Definition digest_words (msg : list byte) : list Z :=
  let bytes := pad ((fun b => Z.of_N (Byte.to_N b)) <$> msg) in
  fold_left compress (pieces (length bytes) 128 bytes) H0.

Definition hex_digit (d : Z) : ascii :=
  if d <? 10 then ascii_of_N (Z.to_N (48 + d)) else ascii_of_N (Z.to_N (87 + d)).

Fixpoint hex_of (n : nat) (x : Z) : string :=
  match n with
  | O => EmptyString
  | S n' => String (hex_digit (Z.shiftr x (4 * Z.of_nat n') mod 16)) (hex_of n' x)
  end.

(** [sha512(msg).hexdigest()]: 128 lowercase hexadecimal digits. *)
Definition hexdigest (msg : list byte) : string :=
  fold_right (fun w s => hex_of 16 w +:+ s) EmptyString (digest_words msg).

End Sha512.

(** The [hashlib] object of line 201: what has been fed to it so far. *)
Definition sha512 : list byte := [].
Definition update (hash chunk : list byte) : list byte := hash ++ chunk.
Definition hexdigest (hash : list byte) : string := Sha512.hexdigest hash.

(** ** The world the module acts on *)

(** An entry of the compatibility-tools directory. *)
Inductive entry :=
| Dir
| File
| Link (target : string).

(** Observable steps, newest first in [trace]: network calls, the download
    helper, the log line that follows a successful digest comparison, and
    the file-system operations on the store and the staging directory. *)
Inductive event :=
| Urlopen (url : string)
| RunZenity (url : string)
| Sha512OK (proton : string)
| Extractall (file : string)
| Rmtree (path : string)
| SymlinkTo (link target : string)
| Unlink (path : string).

(** [environ] is [os.environ]; [env] is the dictionary object that the
    caller passes as [env] (every function mutates and returns that same
    object); [store] lists the direct children of [steam_compat] by name;
    [tmp] holds the regular files of the staging directory by name. *)
Record World := mkWorld {
  environ : gmap string string;
  env : gmap string string;
  store : gmap string entry;
  tmp : gmap string (list byte);
  trace : list event;
}.

Definition set_environ (k v : string) (w : World) : World :=
  mkWorld (<[k := v]> (environ w)) (env w) (store w) (tmp w) (trace w).
Definition set_env (k v : string) (w : World) : World :=
  mkWorld (environ w) (<[k := v]> (env w)) (store w) (tmp w) (trace w).
Definition set_store (s : gmap string entry) (w : World) : World :=
  mkWorld (environ w) (env w) s (tmp w) (trace w).
Definition set_tmp (t : gmap string (list byte)) (w : World) : World :=
  mkWorld (environ w) (env w) (store w) t (trace w).
Definition emit (e : event) (w : World) : World :=
  mkWorld (environ w) (env w) (store w) (tmp w) (e :: trace w).

(** Everything the process does not control.  Each field answers one kind
    of call and may raise instead of answering.
    - [release_index url]: the release index, its status and [loads] of its body;
    - [digest_file url]: status and decoded body of the digest file;
    - [archive url]: status and the successive [resp.read(chunk_size)];
    - [run_zenity url]: exit status of the helper and the file that curl
      left in the staging directory, if any;
    - [tar bytes]: the names of the top-level directories of an archive
      with these bytes, and the error that stops its extraction in this
      run, if any. *)
Record Remote := mkRemote {
  release_index : string -> result (Z * result (list release));
  digest_file : string -> result (Z * result string);
  archive : string -> result (Z * list (result (list byte)));
  run_zenity : string -> result (Z * option (string * list byte));
  tar : list byte -> list string * option exn;
}.

(** ** State and exceptions *)

Definition M (A : Type) : Type := World -> World * result A.

Definition ret {A} (a : A) : M A := fun w => (w, Ret a).
Definition raise {A} (e : exn) : M A := fun w => (w, Raise e).
Definition bind {A B} (m : M A) (k : A -> M B) : M B :=
  fun w => match m w with
           | (w', Ret a) => k a w'
           | (w', Raise e) => (w', Raise e)
           end.
Definition lift {A} (r : result A) : M A := fun w => (w, r).
Definition modify (f : World -> World) : M unit := fun w => (f w, Ret tt).
Definition gets {A} (f : World -> A) : M A := fun w => (w, Ret (f w)).

(** [try: m except <classes>: handler]: [handler e] is [None] when no
    [except] clause matches [e]. *)
Definition try_except {A} (m : M A) (handler : exn -> option (M A)) : M A :=
  fun w => match m w with
           | (w', Ret a) => (w', Ret a)
           | (w', Raise e) =>
               match handler e with
               | Some h => h w'
               | None => (w', Raise e)
               end
           end.

Declare Scope py_scope.
Delimit Scope py_scope with py.
Notation "'let!' x ':=' m 'in' k" := (bind m (fun x => k))
  (at level 10, x pattern, m at level 100, k at level 200) : py_scope.
Notation "m ';;;' k" := (bind m (fun _ => k))
  (at level 100, k at level 200, right associativity) : py_scope.
Local Open Scope py_scope.

(** [l[i]] on a Python list. *)
Definition getitem {A} (l : list A) (i : nat) : M A :=
  match l !! i with
  | Some x => ret x
  | None => raise IndexError
  end.

(** ** File-system primitives *)

(** [Path.joinpath(name).as_posix()]. *)
Definition joinpath (dir name : string) : string := dir +:+ "/" +:+ name.

(** [Path.is_dir()], which follows a symbolic link.  The links of the
    store are taken to be as the module makes them ([symlink_to(proton)],
    a bare name resolved inside [steam_compat]): the target is looked up in
    the store itself, one step; a link whose target is not a directory of
    the store counts as no directory. *)
Definition is_dir (s : gmap string entry) (n : string) : bool :=
  match s !! n with
  | Some Dir => true
  | Some (Link t) => match s !! t with Some Dir => true | _ => false end
  | _ => false
  end.

(** [Path.glob("*")]: the names of the direct children. *)
Definition glob (s : gmap string entry) : list string := (map_to_list s).*1.

(** [shutil.rmtree], which refuses a symbolic link. *)
Definition rmtree (dir n : string) : M unit := fun w =>
  match store w !! n with
  | Some Dir => (emit (Rmtree (joinpath dir n)) (set_store (delete n (store w)) w), Ret tt)
  | Some File | Some (Link _) => (w, Raise OSError)
  | None => (w, Raise FileNotFoundError)
  end.

(** [Path.unlink(missing_ok=True)] on an entry of the store. *)
Definition unlink_store (dir n : string) : M unit := fun w =>
  match store w !! n with
  | Some Dir => (w, Raise OSError)
  | Some _ => (emit (Unlink (joinpath dir n)) (set_store (delete n (store w)) w), Ret tt)
  | None => (w, Ret tt)
  end.

(** [Path.symlink_to(target)]. *)
Definition symlink_to (dir n target : string) : M unit := fun w =>
  match store w !! n with
  | Some _ => (w, Raise OSError)
  | None => (emit (SymlinkTo (joinpath dir n) target)
               (set_store (<[n := Link target]> (store w)) w), Ret tt)
  end.

(** [Path.unlink(missing_ok=True)] on a file of the staging directory. *)
Definition unlink_tmp (dir n : string) : M unit := fun w =>
  match tmp w !! n with
  | Some _ => (emit (Unlink (joinpath dir n)) (set_tmp (delete n (tmp w)) w), Ret tt)
  | None => (w, Ret tt)
  end.

(** The pool, as far as a joined run shows it: a task handed to the pool
    runs to completion when it is submitted, the future keeps its outcome,
    and [future.result()] returns or re-raises it.  This is one schedule
    among those the pool allows.  It gives the outcome of a run in which
    every future is joined and returns; it does not give the state in which
    an error of the first future, or an interrupt of the main thread,
    reaches the caller while the other tasks are still running. *)
Definition submit {A} (task : M A) : M (result A) :=
  fun w => let '(w', r) := task w in (w', Ret r).
Definition future_result {A} (f : result A) : M A := lift f.

(** ** The module's functions *)

(** [str.splitlines()] on the line boundaries a one-byte character can be. *)
Definition is_linebreak (c : ascii) : bool :=
  match N_of_ascii c with
  | 10 | 11 | 12 | 13 | 28 | 29 | 30 | 133 => true
  | _ => false
  end%N.

Fixpoint splitlines_go (cur s : string) : list string :=
  match s with
  | EmptyString =>
      match cur with EmptyString => [] | _ => [String.rev cur] end
  | String c s' =>
      if is_linebreak c then
        String.rev cur ::
          match N_of_ascii c, s' with
          | 13%N, String c' s'' =>
              if (N_of_ascii c' =? 10)%N then splitlines_go EmptyString s''
              else splitlines_go EmptyString s'
          | _, _ => splitlines_go EmptyString s'
          end
      else splitlines_go (String c cur) s'
  end.

Definition splitlines (s : string) : list string := splitlines_go EmptyString s.

(** [line.split(" ")[0]]. *)
Fixpoint split_first (s : string) : string :=
  match s with
  | EmptyString => EmptyString
  | String c s' =>
      if Ascii.eqb c " " then EmptyString else String c (split_first s')
  end.

(** Lines 171-173: the digest of the last line that ends with the archive
    name, [""] when there is none. *)
Definition parse_digest (text proton : string) : string :=
  fold_left
    (fun digest line =>
       if Py.endswith line proton then split_first line else digest)
    (splitlines text) EmptyString.

(** Lines 214-219: the read loop.  Returns the staging file and the hash
    object after the last chunk, and the exception that a read raised. *)
Fixpoint read_loop (reads : list (result (list byte))) (file hash : list byte)
  : list byte * list byte * option exn :=
  match reads with
  | [] => (file, hash, None)
  | Raise e :: _ => (file, hash, Some e)
  | Ret [] :: _ => (file, hash, None)
  | Ret chunk :: rest => read_loop rest (file ++ chunk) (update hash chunk)
  end.

(** One step of [max(protons)]: the candidate replaces the best so far when
    it compares greater. *)
Definition later (best p : string) : string :=
  if String.ltb best p then p else best.

Section Pipeline.

Variable net : Remote.
(** [umu_consts.STEAM_COMPAT] and the directory that [mkdtemp] returns. *)
Variable STEAM_COMPAT : string.
Variable mkdtemp : string.

Definition version_of (w : World) : string :=
  if bool_decide (environ w !! "PROTONPATH" = Some "GE-Proton")
  then "GE-Proton" else "UMU-Proton".

Definition _fetch_releases : M (list (string * string)) :=
  let files : list (string * string) := [] in
  let url := "https://api.github.com" in
  let! ge := gets (fun w => bool_decide (environ w !! "PROTONPATH" = Some "GE-Proton")) in
  let repo := if (ge : bool)
              then "/repos/GloriousEggroll/proton-ge-custom/releases"
              else "/repos/Open-Wine-Components/umu-proton/releases" in
  modify (emit (Urlopen (url +:+ repo))) ;;;
  let! resp := lift (release_index net (url +:+ repo)) in
  let '(status, body) := resp in
  if negb (status =? 200) then ret files
  else
    let! releases := lift body in
    let files := scan_releases releases files in
    if negb (length files =? 2)%nat then raise RuntimeError
    else ret files.

(** Lines 195-225: the built-in download with its digest comparison. *)
Definition download (proton proton_url digest : string) : M unit :=
  modify (emit (Urlopen proton_url)) ;;;
  let! resp := lift (archive net proton_url) in
  let '(status, reads) := resp in
  let hash := sha512 in
  if negb (status =? 200) then raise (HTTPException status)
  else
    let! old := gets (fun w => default [] (tmp w !! proton)) in
    let '(file, hash, err) := read_loop reads old hash in
    modify (fun w => set_tmp (<[proton := file]> (tmp w)) w) ;;;
    match err with
    | Some e => raise e
    | None =>
        if negb (String.eqb (hexdigest hash) digest)
        then raise (ValueError (DigestsMismatched proton))
        else modify (emit (Sha512OK proton))
    end.

Definition _fetch_proton (files : list (string * string)) : M unit :=
  let! (hash, hash_url) := getitem files 0 in
  let! (proton, proton_url) := getitem files 1 in
  let proton_dir := Py.slice_to proton (Py.find proton ".tar.gz") in
  if negb (Py.startswith proton_url "https:")
     || negb (Py.startswith hash_url "https:")
  then raise (ValueError (SchemeNotHttps [proton_url; hash_url]))
  else
    modify (emit (Urlopen hash_url)) ;;;
    let! resp := lift (digest_file net hash_url) in
    let '(status, body) := resp in
    let! digest :=
      (if negb (status =? 200) then raise (HTTPException status)
       else let! text := lift body in ret (parse_digest text proton)) in
    let! zenity := gets (fun w => bool_decide (environ w !! "UMU_ZENITY" = Some "1")) in
    let! ret_code :=
      (if (zenity : bool) then
         modify (emit (RunZenity proton_url)) ;;;
         let! r := lift (run_zenity net proton_url) in
         let '(code, written) := r in
         match written with
         | Some (n, bytes) =>
             modify (fun w => set_tmp (<[n := bytes]> (tmp w)) w) ;;; ret code
         | None => ret code
         end
       else ret 0) in
    (if negb (ret_code =? 0) then unlink_tmp mkdtemp proton else ret tt) ;;;
    let! unset := gets (fun w => negb (Py.truthy (environ w !! "UMU_ZENITY"))) in
    if (unset : bool) || negb (ret_code =? 0)
    then download proton proton_url digest
    else ret tt.

(** [tar.extractall(path=steam_compat)] on the top-level directories of
    the archive: a directory whose name is free is created; a name that is
    already taken, by a directory or by anything else, is left as it is
    ([tarfile]'s [makedir] passes over [FileExistsError]). *)
Fixpoint extract_members (made : list string) (s : gmap string entry)
  : gmap string entry :=
  match made with
  | [] => s
  | d :: rest =>
      match s !! d with
      | None => extract_members rest (<[d := Dir]> s)
      | Some _ => extract_members rest s
      end
  end.

(** [_extract_dir]: [tar_open] needs the staged file; whether the
    extraction then stops with an error (a damaged archive, a member
    below a name that a file holds, an interpreter whose [makedir]
    refuses a taken name, an interrupt) is the oracle's answer for this
    run. *)
Definition _extract_dir (file : string) : M unit := fun w =>
  match tmp w !! file with
  | None => (w, Raise FileNotFoundError)
  | Some bytes =>
      let '(made, err) := tar net bytes in
      (emit (Extractall (joinpath mkdtemp file))
         (set_store (extract_members made (store w)) w),
       match err with
       | Some e => Raise e
       | None => Ret tt
       end)
  end.

Definition _cleanup (tarball proton : string) : M unit :=
  let! is_file := gets (fun w => bool_decide (is_Some (tmp w !! tarball))) in
  (if (is_file : bool) then unlink_tmp mkdtemp tarball else ret tt) ;;;
  let! isd := gets (fun w => is_dir (store w) proton) in
  if (isd : bool) then rmtree STEAM_COMPAT proton else ret tt.

(** [environ["PROTONPATH"] = path] followed by
    [env["PROTONPATH"] = environ["PROTONPATH"]]. *)
Definition set_protonpath (path : string) : M unit :=
  modify (set_environ "PROTONPATH" path) ;;;
  modify (fun w => set_env "PROTONPATH"
                     (default "" (environ w !! "PROTONPATH")) w).

Definition _get_from_steamcompat : M (option unit) :=
  let! version := gets version_of in
  let! protons := gets (fun w =>
    filter (fun proton => Is_true (Py.startswith proton version)) (glob (store w))) in
  match protons with
  | [] => ret None
  | first :: others =>
      let latest := fold_left later others first in
      set_protonpath (joinpath STEAM_COMPAT latest) ;;;
      ret (Some tt)
  end.

(** The loop and the joins of lines 405-414. *)
Fixpoint submit_rmtrees (protons : list string) : M (list (result unit)) :=
  match protons with
  | [] => ret []
  | proton :: rest =>
      let! isd := gets (fun w => is_dir (store w) proton) in
      if (isd : bool) then
        let! f := submit (rmtree STEAM_COMPAT proton) in
        let! fs := submit_rmtrees rest in
        ret (f :: fs)
      else submit_rmtrees rest
  end.

Fixpoint join_all (futures : list (result unit)) : M unit :=
  match futures with
  | [] => ret tt
  | f :: rest => future_result f ;;; join_all rest
  end.

Definition _update_proton (proton : string) (protons : list string) : M unit :=
  unlink_store STEAM_COMPAT "UMU-Latest" ;;;
  symlink_to STEAM_COMPAT "UMU-Latest" proton ;;;
  match protons with
  | [] => ret tt
  | _ =>
      let! futures := submit_rmtrees protons in
      join_all futures
  end.

(** Lines 333-355: for UMU-Proton, extraction and the retirement of the
    previous builds are two tasks of the pool, joined in that order; for
    GE-Proton, extraction alone. *)
Definition finalize (version tarball proton : string) : M unit :=
  if String.eqb version "UMU-Proton" then
    let! protons := gets (fun w =>
      filter (fun file => Is_true (Py.startswith file "UMU-Proton"
                                   || Py.startswith file "ULWGL-Proton"))
             (glob (store w))) in
    let! f1 := submit (_extract_dir tarball) in
    let! f2 := submit (_update_proton proton protons) in
    future_result f1 ;;; future_result f2
  else _extract_dir tarball.

(** The body of the [try] of [_get_latest], lines 315-361. *)
Definition get_latest_body (files : list (string * string)) : M (option unit) :=
  let! second := getitem files 1 in
  let tarball := second.1 in
  let proton := Py.slice_to tarball (Py.find tarball ".tar.gz") in
  let! version := gets version_of in
  let! present := gets (fun w => is_dir (store w) proton) in
  if (present : bool) then
    unlink_store STEAM_COMPAT "UMU-Latest" ;;;
    symlink_to STEAM_COMPAT "UMU-Latest" proton ;;;
    set_protonpath (joinpath STEAM_COMPAT proton) ;;;
    ret (Some tt)
  else
    _fetch_proton files ;;;
    finalize version tarball proton ;;;
    set_protonpath (joinpath STEAM_COMPAT proton) ;;;
    unlink_tmp mkdtemp tarball ;;;
    ret (Some tt).

(** The three [except] clauses of [_get_latest], lines 362-378. *)
Definition get_latest_handler (files : list (string * string)) (e : exn)
  : option (M (option unit)) :=
  if is_ValueError e then
    Some (let! second := getitem files 1 in
          unlink_tmp mkdtemp second.1 ;;; ret None)
  else if is_KeyboardInterrupt e then
    Some (let! second := getitem files 1 in
          let tarball := second.1 in
          let proton_dir := Py.slice_to tarball (Py.find tarball ".tar.gz") in
          _cleanup tarball proton_dir ;;; ret None)
  else if is_HTTPException e then
    Some (ret None)
  else None.

Definition _get_latest (files : list (string * string)) : M (option unit) :=
  match files with
  | [] => ret None
  | _ => try_except (get_latest_body files) (get_latest_handler files)
  end.

Definition get_umu_proton : M unit :=
  modify (set_tmp ∅) ;;;
  let! files :=
    try_except _fetch_releases
      (fun e => if is_URLError e then Some (ret []) else None) in
  let! latest := _get_latest files in
  match latest with
  | Some _ => ret tt
  | None =>
      let! found := _get_from_steamcompat in
      match found with
      | Some _ => ret tt
      | None => modify (set_environ "PROTONPATH" "") ;;; ret tt
      end
  end.

End Pipeline.

(** ** Vocabulary of the statements *)

(** The URL that [_fetch_releases] queries in a given world. *)
Definition index_url (w : World) : string :=
  "https://api.github.com" +:+
  (if bool_decide (environ w !! "PROTONPATH" = Some "GE-Proton")
   then "/repos/GloriousEggroll/proton-ge-custom/releases"
   else "/repos/Open-Wine-Components/umu-proton/releases").

(** The asset list that the scan looks at: that of the first release that
    has one. *)
Fixpoint inspected (rs : list release) : list asset :=
  match rs with
  | [] => []
  | r :: rest =>
      match assets r with
      | None | Some [] => inspected rest
      | Some l => l
      end
  end.

Definition qualifying (rs : list release) : list asset :=
  filter (fun a => Is_true (qualifies a)) (inspected rs).

(** The build directory name that [_get_latest] derives from an archive name. *)
Definition proton_of (tarball : string) : string :=
  Py.slice_to tarball (Py.find tarball ".tar.gz").

(** The bytes that the read loop hands to the hash object. *)
Fixpoint payload (reads : list (result (list byte))) : list byte :=
  match reads with
  | Ret (b :: chunk) :: rest => (b :: chunk) ++ payload rest
  | _ => []
  end.

(** No read raises before the end of the body. *)
Fixpoint reads_ok (reads : list (result (list byte))) : bool :=
  match reads with
  | Ret (_ :: _) :: rest => reads_ok rest
  | Raise _ :: _ => false
  | _ => true
  end.

(** Case normalisation of a digest string, as the specification words it. *)
Definition spec_lower_char (c : ascii) : ascii :=
  let n := N_of_ascii c in
  if ((65 <=? n) && (n <=? 90))%N then ascii_of_N (n + 32) else c.

Fixpoint spec_normalize (s : string) : string :=
  match s with
  | EmptyString => EmptyString
  | String c s' => String (spec_lower_char c) (spec_normalize s')
  end.

(** [m] leaves the component [f] of the world as it found it, whether it
    returns or raises. *)
Definition keeps {A B} (f : World -> B) (m : M A) : Prop :=
  forall w, f (m w).1 = f w.


(** The names that the retirement step of [_get_latest] lists. *)
Definition retirable (n : string) : bool :=
  Py.startswith n "UMU-Proton" || Py.startswith n "ULWGL-Proton".

(** ** Sample worlds *)

Module Sample.

Definition abc : list byte := [x61; x62; x63]%byte.

Definition abc_digest : string :=
  "ddaf35a193617abacc417349ae20413112e6fa4e89a97ea20a9eeee64b55d39a2192992a274fc1a836ba3c23a3feebbd454d4423643ce80e2a9ac94fa54ca49f".

Definition ABC_DIGEST : string :=
  "DDAF35A193617ABACC417349AE20413112E6FA4E89A97EA20A9EEEE64B55D39A2192992A274FC1A836BA3C23A3FEEBBD454D4423643CE80E2A9AC94FA54CA49F".

Definition umu_sum : asset :=
  Asset (Some "UMU-Proton-9.0.sha512sum") (Some "https://github.com/umu/9.0.sha512sum").
Definition umu_tar : asset :=
  Asset (Some "UMU-Proton-9.0.tar.gz") (Some "https://github.com/umu/9.0.tar.gz").
Definition ge_sum : asset :=
  Asset (Some "GE-Proton9-1.sha512sum") (Some "https://github.com/ge/9-1.sha512sum").
Definition ge_tar : asset :=
  Asset (Some "GE-Proton9-1.tar.gz") (Some "https://github.com/ge/9-1.tar.gz").

(** A release index that lists the digest file first, a digest file that
    names the archive, an archive body in one read, a helper that is not
    used, and an archive that unpacks into the build directory. *)
Definition remote (assets : list asset) (tarball : string) (made : string) : Remote :=
  mkRemote
    (fun _ => Ret (200, Ret [Release (Some assets)]))
    (fun _ => Ret (200, Ret (abc_digest +:+ "  " +:+ tarball)))
    (fun _ => Ret (200, [Ret abc]))
    (fun _ => Ret (0, None))
    (fun _ => ([made], None)).

Definition umu_remote : Remote :=
  remote [umu_sum; umu_tar] "UMU-Proton-9.0.tar.gz" "UMU-Proton-9.0".
Definition ge_remote : Remote :=
  remote [ge_sum; ge_tar] "GE-Proton9-1.tar.gz" "GE-Proton9-1".

(** The same index with the archive listed before its digest file. *)
Definition archive_first_remote : Remote :=
  remote [umu_tar; umu_sum] "UMU-Proton-9.0.tar.gz" "UMU-Proton-9.0".

(** An index query answered with a status other than 200. *)
Definition no_content_remote : Remote :=
  mkRemote
    (fun _ => Ret (204, Ret []))
    (fun _ => Raise URLError)
    (fun _ => Raise URLError)
    (fun _ => Ret (0, None))
    (fun _ => ([], None)).

(** The helper downloads a file whose digest is not the published one.
    The three bytes stand for those of a gzip tarball that was tampered
    with: what the archive holds is the [tar] oracle's answer. *)
Definition tampered : list byte := [x61; x62; x64]%byte.
Definition helper_remote : Remote :=
  mkRemote
    (fun _ => Ret (200, Ret [Release (Some [umu_sum; umu_tar])]))
    (fun _ => Ret (200, Ret (abc_digest +:+ "  UMU-Proton-9.0.tar.gz")))
    (fun _ => Ret (200, [Ret abc]))
    (fun _ => Ret (0, Some ("UMU-Proton-9.0.tar.gz", tampered)))
    (fun _ => (["UMU-Proton-9.0"], None)).

(** The digest file is answered with a status other than 200. *)
Definition digest_204_remote : Remote :=
  mkRemote
    (fun _ => Ret (200, Ret [Release (Some [umu_sum; umu_tar])]))
    (fun _ => Ret (204, Ret ""))
    (fun _ => Ret (200, [Ret abc]))
    (fun _ => Ret (0, None))
    (fun _ => (["UMU-Proton-9.0"], None)).

(** The archive body breaks off with an interrupt after one chunk. *)
Definition interrupted_remote : Remote :=
  mkRemote
    (fun _ => Ret (200, Ret [Release (Some [umu_sum; umu_tar])]))
    (fun _ => Ret (200, Ret (abc_digest +:+ "  UMU-Proton-9.0.tar.gz")))
    (fun _ => Ret (200, [Ret abc; Raise KeyboardInterrupt]))
    (fun _ => Ret (0, None))
    (fun _ => (["UMU-Proton-9.0"], None)).

(** The network is unreachable. *)
Definition offline_remote : Remote :=
  mkRemote
    (fun _ => Raise URLError)
    (fun _ => Raise URLError)
    (fun _ => Raise URLError)
    (fun _ => Ret (0, None))
    (fun _ => ([], None)).

Definition staged (tarball : string) (bytes : list byte) (w : World) : World :=
  set_tmp (<[tarball := bytes]> (tmp w)) w.

Definition compat : string := "/home/u/.local/share/Steam/compatibilitytools.d".
Definition staging : string := "/tmp/tmpq1w2e3".

Definition world (environ : gmap string string) (store : gmap string entry) : World :=
  mkWorld environ (<["PROTONPATH" := ""]> ∅) store ∅ [].

Definition old_store : gmap string entry :=
  <["UMU-Latest" := Link "UMU-Proton-8.0"]> (<["UMU-Proton-8.0" := Dir]> ∅).

Definition three_builds : gmap string entry :=
  <["UMU-Proton-7.0" := Dir]>
    (<["UMU-Proton-9.0" := Dir]> (<["UMU-Proton-8.1" := Dir]> ∅)).

Definition umu_files : list (string * string) :=
  [asset_pair umu_sum; asset_pair umu_tar].
Definition ge_files : list (string * string) :=
  [asset_pair ge_sum; asset_pair ge_tar].
Definition insecure_files : list (string * string) :=
  [asset_pair umu_sum; ("UMU-Proton-9.0.tar.gz", "http://github.com/umu/9.0.tar.gz")].

End Sample.

(** * gamelauncher.py

    The checks and the environment set-up of [src/gamelauncher.py].  The
    file system is observed through a [Host]: each field answers one
    [pathlib] call on the path string that the code passes to [Path]. *)

Module Launcher.

(** The exceptions of this file; [KeyboardInterrupt] is the one that
    [except Exception] does not catch. *)
Inductive exn :=
| ValueError (msg : string)
| FileNotFoundError (msg : string)
| FileExistsError
| PermissionError
| RuntimeError (msg : string)
| SystemExit (msg : string)
| AttributeError
| KeyError (key : string)
| TypeError
| KeyboardInterrupt.

Definition is_Exception (e : exn) : bool :=
  match e with SystemExit _ | KeyboardInterrupt => false | _ => true end.

Inductive result (A : Type) :=
| Ret (a : A)
| Raise (e : exn).
Arguments Ret {A} a.
Arguments Raise {A} e.

(** - [is_dir p], [is_file p]: [Path(p).is_dir()], [Path(p).is_file()];
      in [set_env], where they are called after [_setup_pfx], they
      answer for the file system as [_setup_pfx] left it;
    - [symlink_to link target], [touch p]: the exception that the call
      raises, if any. *)
Record Host := mkHost {
  is_dir : string -> bool;
  is_file : string -> bool;
  symlink_to : string -> string -> option exn;
  touch : string -> option exn;
}.

(** The [Namespace] that [argparse] fills: [--config], [--exe], [--verb]
    are absent ([None]) unless given; [--empty] is an [int] that
    defaults to 0. *)
Record Namespace := mkNamespace {
  config : option string;
  exe : option string;
  verb : option string;
  empty : Z;
}.

(** Lines 43-55 of [parse_args], on the namespace that
    [parser.parse_args] returned. *)
Definition parse_args (args : Namespace) : result Namespace :=
  if Py.truthy (config args)
     || (bool_decide (exe args = None) && negb (empty args =? 0))
  then Ret args
  else Raise (SystemExit
    "Error: a value for --empty is required for creating empty Proton prefixes").

Definition _setup_pfx (host : Host) (path : string) : result unit :=
  let linked :=
    match symlink_to host (path +:+ "/pfx") path with
    | None => Ret tt
    | Some FileExistsError => Ret tt
    | Some e =>
        if is_Exception e
        then Raise (RuntimeError
               ("Error occurred when creating symbolic link at " +:+ path +:+ "/pfx"))
        else Raise e
    end in
  match linked with
  | Raise e => Raise e
  | Ret _ =>
      match touch host (path +:+ "/tracked_files") with
      | None => Ret tt
      | Some e => Raise e
      end
  end.

(** [check_env]: the dictionary as the call leaves it, and the outcome. *)
Definition check_env (host : Host) (environ env : gmap string string)
  : gmap string string * result unit :=
  match environ !! "WINEPREFIX" with
  | None =>
      (env, Raise (ValueError
         "Environment variable not set or not a directory: WINEPREFIX"))
  | Some path =>
      if negb (is_dir host path) then
        (env, Raise (ValueError
           "Environment variable not set or not a directory: WINEPREFIX"))
      else
        let env := <["WINEPREFIX" := path]> env in
        match environ !! "GAMEID" with
        | None => (env, Raise (ValueError "Environment variable not set: GAMEID"))
        | Some game =>
            let env := <["GAMEID" := game]> env in
            match environ !! "PROTONPATH" with
            | None =>
                (env, Raise (ValueError
                   "Environment variable not set or not a directory: PROTONPATH"))
            | Some proton =>
                if negb (is_dir host proton) then
                  (env, Raise (ValueError
                     "Environment variable not set or not a directory: PROTONPATH"))
                else
                  (<["STEAM_COMPAT_INSTALL_PATH" := proton]>
                     (<["PROTONPATH" := proton]> env), Ret tt)
            end
        end
  end.

(** [s.split(" ")]: the pieces between single spaces, empty ones kept. *)
Fixpoint split_go (cur s : string) : list string :=
  match s with
  | EmptyString => [String.rev cur]
  | String c s' =>
      if Ascii.eqb c " " then String.rev cur :: split_go EmptyString s'
      else split_go (String c cur) s'
  end.

Definition split_space (s : string) : list string := split_go EmptyString s.

(** The loop of lines 115-120: the first launch argument that is a file. *)
Fixpoint first_file (host : Host) (l : list string) : option string :=
  match l with
  | [] => None
  | a :: rest => if is_file host a then Some a else first_file host rest
  end.

(** The body of the loop of [set_env] for the item [("exe", val)] when no
    empty prefix is asked for, lines 103-125. *)
Definition set_exe (host : Host) (val : option string)
    (env : gmap string string) : gmap string string * result unit :=
  match val with
  | None => (env, Raise AttributeError)
  | Some val =>
      let launch_args := EmptyString in
      let exe := val in
      let found := negb (Py.find val " " =? -1) in
      let launch_args :=
        if found then Py.drop (Z.to_nat (Py.find val " " + 1)) val
        else launch_args in
      let exe := if found then Py.slice_to val (Py.find val " ") else exe in
      if negb (is_file host exe) then
        (env, Raise (FileNotFoundError ("Value for 'exe' is not a file: " +:+ exe)))
      else
        match launch_args with
        | EmptyString => (<["EXE" := exe]> env, Ret tt)
        | _ =>
            match first_file host (split_space launch_args) with
            | Some launch_arg =>
                (env, Raise (ValueError
                   ("Value for launch arguments should not be a file: "
                    +:+ launch_arg)))
            | None =>
                (<["EXE" := exe]> (<["LAUNCHARGS" := launch_args]> env), Ret tt)
            end
        end
  end.

(** [set_env]: [vars(args)] lists config, exe, verb and empty; only the
    exe item has a body. *)
Definition set_env (host : Host) (env : gmap string string) (args : Namespace)
  : gmap string string * result unit :=
  match env !! "WINEPREFIX" with
  | None => (env, Raise (KeyError "WINEPREFIX"))
  | Some prefix =>
      match _setup_pfx host prefix with
      | Raise e => (env, Raise e)
      | Ret _ =>
          let is_create_prefix := negb (empty args =? 0) in
          if negb is_create_prefix then set_exe host (exe args) env
          else (env, Ret tt)
      end
  end.

(** A host where the prefix and the Proton directory exist and the game
    is a file. *)
Definition sample_host : Host :=
  mkHost
    (fun p => bool_decide (p = "/games/pfx" \/ p = "/opt/proton"))
    (fun p => bool_decide (p = "/games/game.exe"))
    (fun _ _ => None)
    (fun _ => None).

Definition sample_environ : gmap string string :=
  <["WINEPREFIX" := "/games/pfx"]>
    (<["GAMEID" := "ulwgl-0"]> (<["PROTONPATH" := "/opt/proton"]> ∅)).

End Launcher.
(** * Properties *)

(** ** hashlib.sha512 on published test vectors *)

Example sha512_empty :
  Sha512.hexdigest [] =
  "cf83e1357eefb8bdf1542850d66d8007d620e4050b5715dc83f4a921d36ce9ce47d0d13c5d85f2b0ff8318d2877eec2f63b931bd47417a81a538327af927da3e".
Proof. vm_compute. reflexivity. Qed.

Example sha512_abc : Sha512.hexdigest Sample.abc = Sample.abc_digest.
Proof. vm_compute. reflexivity. Qed.

Example sha512_two_blocks :
  Sha512.hexdigest (replicate 200 x61%byte) =
  "4b11459c33f52a22ee8236782714c150a3b2c60994e9acee17fe68947a3e6789f31e7668394592da7bef827cddca88c4e6f86e4df7ed1ae6cba71f3e98faee9f".
Proof. vm_compute. reflexivity. Qed.

(** ** The release client *)

Section ReleaseClient.

Lemma scan_assets_take (l : list asset) (files : list (string * string)) :
  (length files < 2)%nat ->
  scan_assets l files
  = take 2 (files ++ (asset_pair <$> filter (fun a => Is_true (qualifies a)) l)).
Proof.
  revert files. induction l as [|a rest IH]; intros files Hlen; simpl.
  - rewrite app_nil_r, take_ge by lia. reflexivity.
  - rewrite filter_cons.
    destruct (qualifies a) eqn:Hq; simpl.
    + replace (if Py.endswith (default "" (name a)) "sum"
               then files ++ [asset_pair a] else files ++ [asset_pair a])
        with (files ++ [asset_pair a]) by (destruct (Py.endswith _ _); reflexivity).
      destruct (decide (Is_true true)) as [_|n]; [|exfalso; apply n; exact I].
      match goal with |- _ = take 2 (files ++ asset_pair a :: ?X) =>
        replace (files ++ asset_pair a :: X) with ((files ++ [asset_pair a]) ++ X)
          by (rewrite <- app_assoc; reflexivity)
      end.
      destruct (Nat.eqb_spec (length (files ++ [asset_pair a])) 2) as [E|E].
      * rewrite take_app_length'; [reflexivity|symmetry; exact E].
      * apply IH. rewrite length_app in *; simpl in *; lia.
    + destruct (decide (Is_true false)) as [[]|_].
      destruct (Nat.eqb_spec (length files) 2) as [E|E]; [lia|].
      apply IH, Hlen.
Qed.

Lemma scan_releases_take (rs : list release) :
  scan_releases rs [] = take 2 (asset_pair <$> qualifying rs).
Proof.
  unfold qualifying.
  induction rs as [|r rest IH]; simpl; [reflexivity|].
  destruct (assets r) as [[|a l]|]; try exact IH.
  apply (scan_assets_take (a :: l) []). simpl; lia.
Qed.

Lemma fetch_releases_unfold (net : Remote) (w : World) :
  _fetch_releases net w =
  (emit (Urlopen (index_url w)) w,
   match release_index net (index_url w) with
   | Raise e => Raise e
   | Ret (status, body) =>
       if status =? 200 then
         match body with
         | Raise e => Raise e
         | Ret rs =>
             if (length (scan_releases rs []) =? 2)%nat
             then Ret (scan_releases rs [])
             else Raise RuntimeError
         end
       else Ret []
   end).
Proof.
  unfold _fetch_releases, index_url, bind, gets, modify, lift, ret, raise.
  destruct (bool_decide _); simpl;
    (destruct (release_index net _) as [[status body]|e]; [|reflexivity]);
    (destruct (status =? 200); simpl; [|reflexivity]);
    (destruct body as [rs|e]; [|reflexivity]);
    destruct (length (scan_releases rs []) =? 2)%nat; reflexivity.
Qed.

End ReleaseClient.

(** C5 (as amended).  A transport failure of the index query propagates; an
    answer whose status is not 200 yields the empty list without an error;
    an answer with status 200 whose inspected release has fewer than two
    qualifying assets fails with [RuntimeError]; and whatever is returned
    has no or two elements, never one. *)
Theorem fetch_releases_outcomes (net : Remote) (w : World) :
  let answer := release_index net (index_url w) in
  let outcome := (_fetch_releases net w).2 in
  (forall e, answer = Raise e -> outcome = Raise e)
  /\ (forall status body,
        answer = Ret (status, body) -> status <> 200 -> outcome = Ret [])
  /\ (forall rs,
        answer = Ret (200, Ret rs) -> (length (qualifying rs) < 2)%nat ->
        outcome = Raise RuntimeError)
  /\ (forall files,
        outcome = Ret files -> length files = 0%nat \/ length files = 2%nat).
Proof.
  intros answer outcome. subst answer outcome.
  rewrite fetch_releases_unfold. simpl.
  repeat split.
  - intros e ->. reflexivity.
  - intros status body -> Hs.
    destruct (Z.eqb_spec status 200); [contradiction|reflexivity].
  - intros rs -> Hlen. simpl.
    rewrite scan_releases_take.
    destruct (Nat.eqb_spec (length (take 2 (asset_pair <$> qualifying rs))) 2) as [E|E];
      [|reflexivity].
    rewrite length_take, length_fmap in E. lia.
  - intros files.
    destruct (release_index net (index_url w)) as [[status body]|e]; [|discriminate].
    destruct (status =? 200); [|intros [= <-]; left; reflexivity].
    destruct body as [rs|e]; [|discriminate].
    destruct (Nat.eqb_spec (length (scan_releases rs [])) 2) as [E|E]; [|discriminate].
    intros [= <-]. right. exact E.
Qed.

Lemma fetch_releases_outcomes_witness :
  (_fetch_releases Sample.no_content_remote (Sample.world ∅ ∅)).2 = Ret []
  /\ (_fetch_releases (Sample.remote [Sample.umu_tar] "" "") (Sample.world ∅ ∅)).2
     = Raise RuntimeError.
Proof.
  split.
  - apply (proj1 (proj2
      (fetch_releases_outcomes Sample.no_content_remote (Sample.world ∅ ∅)))
      204 (Ret [])); [reflexivity | lia].
  - apply (proj1 (proj2 (proj2
      (fetch_releases_outcomes (Sample.remote [Sample.umu_tar] "" "") (Sample.world ∅ ∅))))
      [Release (Some [Sample.umu_tar])]); [reflexivity | vm_compute; lia].
Defined.

(** C5 (as stated) fails: the index answers with status 204, no qualifying
    asset is found, and the client returns the empty list instead of
    failing. *)
Lemma fetch_releases_non_200_returns :
  let w := Sample.world ∅ ∅ in
  release_index Sample.no_content_remote (index_url w) = Ret (204, Ret [])
  /\ (_fetch_releases Sample.no_content_remote w).2 = Ret []
  /\ ~ (exists e, (_fetch_releases Sample.no_content_remote w).2 = Raise e).
Proof.
  repeat split.
  intros [e He]. vm_compute in He. discriminate.
Qed.

(** C6: evaluated on a release that lists the archive before its digest
    file (both qualifying), the client returns the archive first and the
    digest file second. *)
Theorem fetch_releases_keeps_index_order :
  (_fetch_releases Sample.archive_first_remote (Sample.world ∅ ∅)).2
  = Ret [ asset_pair Sample.umu_tar; asset_pair Sample.umu_sum ]
  /\ Py.endswith (asset_pair Sample.umu_tar).1 "sum" = false
  /\ length (qualifying [Release (Some [Sample.umu_tar; Sample.umu_sum])]) = 2%nat.
Proof. repeat split. Qed.

(** ** The digest comparison *)

Lemma read_loop_ok (reads : list (result (list byte))) (file hash : list byte) :
  reads_ok reads = true ->
  read_loop reads file hash = (file ++ payload reads, hash ++ payload reads, None).
Proof.
  revert file hash.
  induction reads as [|[[|b chunk]|e] rest IH]; intros file hash Hok; simpl in *.
  - rewrite !app_nil_r. reflexivity.
  - rewrite !app_nil_r. reflexivity.
  - rewrite IH by exact Hok. unfold update.
    rewrite <- !app_assoc. reflexivity.
  - discriminate.
Qed.

Lemma download_unfold (net : Remote) (proton url digest : string) (w : World)
    (reads : list (result (list byte))) :
  archive net url = Ret (200, reads) ->
  reads_ok reads = true ->
  (download net proton url digest w).2 =
  if String.eqb (Sha512.hexdigest (payload reads)) digest
  then Ret tt else Raise (ValueError (DigestsMismatched proton)).
Proof.
  intros Ha Hok.
  unfold download, bind, modify, lift, gets, raise, sha512, hexdigest. simpl.
  rewrite Ha. simpl.
  rewrite (read_loop_ok reads _ [] Hok). simpl.
  destruct (String.eqb _ digest); reflexivity.
Qed.

(** C4 (as amended).  When the archive is served with status 200 and no
    read fails, the built-in download accepts exactly when the expected
    digest string is, character for character, the lowercase hexadecimal
    SHA-512 digest of the bytes read; any other string, whatever its case
    or format, is rejected with the digest-mismatch [ValueError]. *)
Theorem download_accepts_exact_digest (net : Remote) (proton url digest : string)
    (w : World) (reads : list (result (list byte))) :
  archive net url = Ret (200, reads) ->
  reads_ok reads = true ->
  let outcome := (download net proton url digest w).2 in
  (outcome = Ret tt <-> digest = Sha512.hexdigest (payload reads))
  /\ (digest <> Sha512.hexdigest (payload reads) ->
      outcome = Raise (ValueError (DigestsMismatched proton))).
Proof.
  intros Ha Hok outcome. subst outcome.
  rewrite (download_unfold net proton url digest w reads Ha Hok).
  destruct (String.eqb_spec (Sha512.hexdigest (payload reads)) digest) as [E|E].
  - split; [split; [intros _; symmetry; exact E | reflexivity]|].
    intros Hne. exfalso. apply Hne. symmetry. exact E.
  - split; [split; [discriminate | intros ->; contradiction]|].
    reflexivity.
Qed.

Lemma download_accepts_exact_digest_witness :
  (download Sample.umu_remote "UMU-Proton-9.0.tar.gz"
     "https://github.com/umu/9.0.tar.gz" Sample.abc_digest
     (Sample.world ∅ ∅)).2 = Ret tt.
Proof.
  apply (proj1 (download_accepts_exact_digest Sample.umu_remote
           "UMU-Proton-9.0.tar.gz" "https://github.com/umu/9.0.tar.gz"
           Sample.abc_digest (Sample.world ∅ ∅) [Ret Sample.abc]
           eq_refl eq_refl)).
  vm_compute. reflexivity.
Defined.

(** C4 (as stated) fails: the published digest written in uppercase is the
    digest of the payload once case is normalised, and is rejected. *)
Lemma download_rejects_uppercase_digest :
  spec_normalize Sample.ABC_DIGEST = Sha512.hexdigest Sample.abc
  /\ (download Sample.umu_remote "UMU-Proton-9.0.tar.gz"
        "https://github.com/umu/9.0.tar.gz" Sample.ABC_DIGEST
        (Sample.world ∅ ∅)).2
     = Raise (ValueError (DigestsMismatched "UMU-Proton-9.0.tar.gz")).
Proof. split; vm_compute; reflexivity. Qed.

(** ** The fallback selector *)

Section Fallback.

Lemma ltb_le (a b : string) : String.ltb a b = true -> (a ≤ b)%string.
Proof.
  unfold String.ltb, String.le, String.leb.
  destruct (String.compare a b); [discriminate| |discriminate]. intros _. exact I.
Qed.

Lemma not_ltb_le (a b : string) : String.ltb a b = false -> (b ≤ a)%string.
Proof.
  unfold String.ltb, String.le, String.leb.
  rewrite (String.compare_antisym b a).
  destruct (String.compare a b); simpl; [intros _; exact I|discriminate|intros _; exact I].
Qed.

Lemma fold_later_max (others : list string) (first : string) :
  let m := fold_left later others first in
  m ∈ first :: others /\ forall p, p ∈ first :: others -> (p ≤ m)%string.
Proof.
  revert first. induction others as [|q rest IH]; intros first; simpl.
  - split; [left|]. intros p Hp. apply list_elem_of_singleton in Hp as ->. reflexivity.
  - destruct (IH (later first q)) as [Hin Hmax]. split.
    + apply elem_of_cons in Hin as [Hin|Hin].
      * rewrite Hin. unfold later. destruct (String.ltb first q).
        -- right; left.
        -- left.
      * right; right; exact Hin.
    + intros p Hp.
      assert (Hl : (first ≤ later first q)%string /\ (q ≤ later first q)%string).
      { unfold later. destruct (String.ltb first q) eqn:E.
        - split; [apply ltb_le, E | reflexivity].
        - split; [reflexivity | apply not_ltb_le, E]. }
      destruct Hl as [Hf Hq].
      assert (Hm : (later first q ≤ fold_left later rest (later first q))%string)
        by (apply Hmax; left).
      apply elem_of_cons in Hp as [->|Hp].
      * etransitivity; eassumption.
      * apply elem_of_cons in Hp as [->|Hp].
        -- etransitivity; eassumption.
        -- apply Hmax. right. exact Hp.
Qed.

Lemma elem_of_glob_filter (s : gmap string entry) (P : string -> bool) (n : string) :
  n ∈ filter (fun p => Is_true (P p)) (glob s) <-> is_Some (s !! n) /\ P n = true.
Proof.
  unfold glob. rewrite list_elem_of_filter, list_elem_of_fmap. split.
  - intros [HP [[k e] [-> Hin]]]. apply elem_of_map_to_list in Hin.
    split; [eexists; exact Hin | apply Is_true_true, HP].
  - intros [[e He] HP]. split; [apply Is_true_true, HP|].
    exists (n, e). split; [reflexivity | apply elem_of_map_to_list, He].
Qed.

End Fallback.

(** C9.  When some entry of the store has a name that starts with the
    vendor's prefix, the fallback selector publishes, in the process
    environment and in the caller's dictionary, the path of the matching
    entry whose name is lexicographically maximal; when no entry matches it
    returns [None] and changes nothing. *)
Theorem fallback_selects_maximal_name (dir : string) (w : World) :
  let matches n :=
    is_Some (store w !! n) /\ Py.startswith n (version_of w) = true in
  ((exists n, matches n) ->
   exists latest,
     matches latest
     /\ (forall n, matches n -> (n ≤ latest)%string)
     /\ _get_from_steamcompat dir w
        = (set_env "PROTONPATH" (joinpath dir latest)
             (set_environ "PROTONPATH" (joinpath dir latest) w),
           Ret (Some tt)))
  /\ ((forall n, ~ matches n) -> _get_from_steamcompat dir w = (w, Ret None)).
Proof.
  intros matches.
  unfold _get_from_steamcompat, set_protonpath, bind, gets, modify, ret. simpl.
  pose proof (elem_of_glob_filter (store w)
                (fun p => Py.startswith p (version_of w))) as Hmem.
  destruct (filter _ (glob (store w))) as [|first others] eqn:Hf.
  - split.
    + intros [n Hn]. apply Hmem in Hn. inversion Hn.
    + reflexivity.
  - split.
    + intros _.
      destruct (fold_later_max others first) as [Hin Hmax].
      exists (fold_left later others first). repeat split.
      * apply Hmem in Hin. apply Hin.
      * apply Hmem in Hin. apply Hin.
      * intros n Hn. apply Hmax, Hmem, Hn.
      * unfold set_env, set_environ. simpl. rewrite lookup_insert_eq. reflexivity.
    + intros Hnone. exfalso. apply (Hnone first), Hmem. left.
Qed.

Lemma fallback_selects_maximal_name_witness :
  exists latest,
    (forall n, is_Some (Sample.three_builds !! n)
               /\ Py.startswith n "UMU-Proton" = true -> (n ≤ latest)%string)
    /\ _get_from_steamcompat Sample.compat (Sample.world ∅ Sample.three_builds)
       = (set_env "PROTONPATH" (joinpath Sample.compat latest)
            (set_environ "PROTONPATH" (joinpath Sample.compat latest)
               (Sample.world ∅ Sample.three_builds)),
          Ret (Some tt)).
Proof.
  destruct (proj1 (fallback_selects_maximal_name Sample.compat
                     (Sample.world ∅ Sample.three_builds)))
    as (latest & _ & Hmax & Hrun).
  - exists "UMU-Proton-7.0". split; [eexists|]; reflexivity.
  - exists latest. split; [exact Hmax | exact Hrun].
Defined.

(** The example of the specification: among 7.0, 8.1 and 9.0 the selector
    publishes 9.0. *)
Example fallback_three_builds :
  let w' := (_get_from_steamcompat Sample.compat
               (Sample.world ∅ Sample.three_builds)).1 in
  environ w' !! "PROTONPATH" = Some (joinpath Sample.compat "UMU-Proton-9.0")
  /\ env w' !! "PROTONPATH" = Some (joinpath Sample.compat "UMU-Proton-9.0").
Proof. split; vm_compute; reflexivity. Qed.

(** ** Runs on the sample worlds *)

(** C1: evaluated with the download helper enabled and succeeding, on an
    archive whose digest is not the published one, the attempt extracts the
    archive and reports success; no digest comparison precedes the
    extraction. *)
Theorem helper_download_is_extracted_unverified :
  let w := Sample.world (<["UMU_ZENITY" := "1"]> ∅) Sample.old_store in
  let run := _get_latest Sample.helper_remote Sample.compat Sample.staging
               Sample.umu_files w in
  Sha512.hexdigest Sample.tampered <> Sample.abc_digest
  /\ run.2 = Ret (Some tt)
  /\ trace run.1
     = [ Unlink (joinpath Sample.staging "UMU-Proton-9.0.tar.gz");
         Rmtree (joinpath Sample.compat "UMU-Proton-8.0");
         SymlinkTo (joinpath Sample.compat "UMU-Latest") "UMU-Proton-9.0";
         Unlink (joinpath Sample.compat "UMU-Latest");
         Extractall (joinpath Sample.staging "UMU-Proton-9.0.tar.gz");
         RunZenity "https://github.com/umu/9.0.tar.gz";
         Urlopen "https://github.com/umu/9.0.sha512sum" ]
  /\ (Sha512OK "UMU-Proton-9.0.tar.gz" ∉ trace run.1)
  /\ store run.1 !! "UMU-Proton-9.0" = Some Dir.
Proof.
  split; [vm_compute; discriminate|].
  split; [vm_compute; reflexivity|].
  split; [vm_compute; reflexivity|].
  split; [|vm_compute; reflexivity].
  intros Hin. vm_compute in Hin.
  repeat (apply elem_of_cons in Hin as [Hin|Hin]; [discriminate|]).
  inversion Hin.
Qed.

(** C2.  For GE-Proton the update does not republish the alias.  On this
    run the update succeeds, the new build is in the store, the staging
    archive is gone and [PROTONPATH] selects the new build, yet
    [UMU-Latest] still points at the build it pointed at before.  The
    up-to-date path of the same function, taken on the same files in the
    world that this run leaves, does relink the alias to the build. *)
Theorem ge_update_leaves_alias :
  let w := Sample.world (<["PROTONPATH" := "GE-Proton"]> ∅) Sample.old_store in
  let run := _get_latest Sample.ge_remote Sample.compat Sample.staging
               Sample.ge_files w in
  let again := _get_latest Sample.ge_remote Sample.compat Sample.staging
                 Sample.ge_files run.1 in
  run.2 = Ret (Some tt)
  /\ store run.1 !! "GE-Proton9-1" = Some Dir
  /\ tmp run.1 !! "GE-Proton9-1.tar.gz" = None
  /\ environ run.1 !! "PROTONPATH"
     = Some (joinpath Sample.compat "GE-Proton9-1")
  /\ store run.1 !! "UMU-Latest" = Some (Link "UMU-Proton-8.0")
  /\ again.2 = Ret (Some tt)
  /\ trace again.1
     = SymlinkTo (joinpath Sample.compat "UMU-Latest") "GE-Proton9-1"
       :: Unlink (joinpath Sample.compat "UMU-Latest") :: trace run.1
  /\ store again.1 !! "UMU-Latest" = Some (Link "GE-Proton9-1").
Proof. vm_compute. repeat split. Qed.

(** The build name is the archive name cut at the first [".tar.gz"], which
    need not be its suffix. *)
Example proton_of_without_dot :
  qualifies (Asset (Some "UMU-Proton-9.0tar.gz") (Some "https://github.com/x")) = true
  /\ proton_of "UMU-Proton-9.0tar.gz" = "UMU-Proton-9.0tar.g".
Proof. split; reflexivity. Qed.



(** For GE-Proton the first invocation overwrites the vendor selector held
    in [PROTONPATH], so that the second one queries the other vendor. *)
Example ge_second_invocation_switches_vendor :
  let w0 := Sample.world (<["PROTONPATH" := "GE-Proton"]> ∅) Sample.old_store in
  let first := get_umu_proton Sample.ge_remote Sample.compat Sample.staging w0 in
  first.2 = Ret tt
  /\ index_url w0 = "https://api.github.com/repos/GloriousEggroll/proton-ge-custom/releases"
  /\ index_url first.1 = "https://api.github.com/repos/Open-Wine-Components/umu-proton/releases".
Proof. vm_compute. repeat split. Qed.

(** ** Reasoning about runs *)

Section Runs.

Context {A B : Type}.

Lemma bind_ret_inv (m : M A) (k : A -> M B) (w w' : World) (b : B) :
  bind m k w = (w', Ret b) ->
  exists a w1, m w = (w1, Ret a) /\ k a w1 = (w', Ret b).
Proof.
  unfold bind. destruct (m w) as [w1 [a|e]]; [|discriminate].
  intros H. exists a, w1. split; [reflexivity | exact H].
Qed.

Lemma bind_raise_inv (m : M A) (k : A -> M B) (w w' : World) (e : exn) :
  bind m k w = (w', Raise e) ->
  m w = (w', Raise e)
  \/ exists a w1, m w = (w1, Ret a) /\ k a w1 = (w', Raise e).
Proof.
  unfold bind. destruct (m w) as [w1 [a|e1]].
  - intros H. right. exists a, w1. split; [reflexivity | exact H].
  - intros [= -> ->]. left. reflexivity.
Qed.

Lemma bind_run (m : M A) (k : A -> M B) (w w1 : World) (a : A) :
  m w = (w1, Ret a) -> bind m k w = k a w1.
Proof. unfold bind. intros ->. reflexivity. Qed.

End Runs.

Section Keeps.

Context {C : Type} (f : World -> C).

Lemma keeps_ret {A} (a : A) : keeps f (ret a).
Proof. intros w. reflexivity. Qed.

Lemma keeps_raise {A} (e : exn) : keeps f (raise (A:=A) e).
Proof. intros w. reflexivity. Qed.

Lemma keeps_lift {A} (r : result A) : keeps f (lift r).
Proof. intros w. reflexivity. Qed.

Lemma keeps_gets {A} (g : World -> A) : keeps f (gets g).
Proof. intros w. reflexivity. Qed.

Lemma keeps_modify (g : World -> World) :
  (forall w, f (g w) = f w) -> keeps f (modify g).
Proof. intros H w. apply H. Qed.

Lemma keeps_bind {A B} (m : M A) (k : A -> M B) :
  keeps f m -> (forall a, keeps f (k a)) -> keeps f (bind m k).
Proof.
  intros Hm Hk w. unfold bind. specialize (Hm w).
  destruct (m w) as [w1 [a|e]]; simpl in *.
  - rewrite Hk. exact Hm.
  - exact Hm.
Qed.

Lemma keeps_submit {A} (m : M A) : keeps f m -> keeps f (submit m).
Proof.
  intros Hm w. unfold submit. specialize (Hm w).
  destruct (m w) as [w1 r]. exact Hm.
Qed.

Lemma keeps_try_except {A} (m : M A) (handler : exn -> option (M A)) :
  keeps f m -> (forall e h, handler e = Some h -> keeps f h) ->
  keeps f (try_except m handler).
Proof.
  intros Hm Hh w. unfold try_except. specialize (Hm w).
  destruct (m w) as [w1 [a|e]]; simpl in *; [exact Hm|].
  destruct (handler e) as [h|] eqn:E; [|exact Hm].
  rewrite (Hh e h E). exact Hm.
Qed.

Lemma keeps_run {A} (m : M A) (w w' : World) (r : result A) :
  keeps f m -> m w = (w', r) -> f w' = f w.
Proof. intros Hm E. specialize (Hm w). rewrite E in Hm. exact Hm. Qed.

End Keeps.

Create HintDb keeps discriminated.

Ltac keeps_step :=
  first
    [ apply keeps_ret | apply keeps_raise | apply keeps_lift | apply keeps_gets
    | apply keeps_modify; intros ?; reflexivity
    | apply keeps_submit
    | apply keeps_bind; [|intros ?]
    | solve [eauto with keeps]
    | match goal with
      | |- keeps _ (match ?x with _ => _ end) => destruct x
      | |- keeps _ (let '(_, _) := ?x in _) => destruct x
      end ].

Ltac keeps_tac := repeat keeps_step.

Section Primitives.

Variable net : Remote.
Variables dir tmpd : string.

Lemma rmtree_keeps {C} (f : World -> C) (n : string) :
  (forall s w, f (set_store s w) = f w) -> (forall e w, f (emit e w) = f w) ->
  keeps f (rmtree dir n).
Proof.
  intros Hs He w. unfold rmtree.
  destruct (store w !! n) as [[| |t]|]; simpl; rewrite ?He, ?Hs; reflexivity.
Qed.

Lemma unlink_store_keeps {C} (f : World -> C) (n : string) :
  (forall s w, f (set_store s w) = f w) -> (forall e w, f (emit e w) = f w) ->
  keeps f (unlink_store dir n).
Proof.
  intros Hs He w. unfold unlink_store.
  destruct (store w !! n) as [[| |t]|]; simpl; rewrite ?He, ?Hs; reflexivity.
Qed.

Lemma symlink_to_keeps {C} (f : World -> C) (n t : string) :
  (forall s w, f (set_store s w) = f w) -> (forall e w, f (emit e w) = f w) ->
  keeps f (symlink_to dir n t).
Proof.
  intros Hs He w. unfold symlink_to.
  destruct (store w !! n); simpl; rewrite ?He, ?Hs; reflexivity.
Qed.

Lemma unlink_tmp_keeps {C} (f : World -> C) (n : string) :
  (forall s w, f (set_tmp s w) = f w) -> (forall e w, f (emit e w) = f w) ->
  keeps f (unlink_tmp tmpd n).
Proof.
  intros Hs He w. unfold unlink_tmp.
  destruct (tmp w !! n); simpl; rewrite ?He, ?Hs; reflexivity.
Qed.

Lemma extract_dir_keeps {C} (f : World -> C) (file : string) :
  (forall s w, f (set_store s w) = f w) -> (forall e w, f (emit e w) = f w) ->
  keeps f (_extract_dir net tmpd file).
Proof.
  intros Hs He w. unfold _extract_dir.
  destruct (tmp w !! file); [|reflexivity].
  destruct (tar net l) as [made err]. simpl.
  rewrite He, Hs. reflexivity.
Qed.

End Primitives.

(** ** What each function leaves alone *)

Section Frames.

Variable net : Remote.
Variables dir tmpd : string.
Context {C : Type} (f : World -> C).
Hypothesis f_trace : forall e w, f (emit e w) = f w.

Lemma fetch_releases_keeps : keeps f (_fetch_releases net).
Proof.
  unfold _fetch_releases.
  apply keeps_bind; [apply keeps_gets|intros ge].
  apply keeps_bind; [apply keeps_modify, f_trace|intros _].
  apply keeps_bind; [apply keeps_lift|intros [status body]].
  destruct (negb _); [apply keeps_ret|].
  apply keeps_bind; [apply keeps_lift|intros rs].
  destruct (negb _); [apply keeps_raise|apply keeps_ret].
Qed.

Section Staging.

Hypothesis f_tmp : forall t w, f (set_tmp t w) = f w.

Lemma download_keeps (proton url digest : string) :
  keeps f (download net proton url digest).
Proof.
  unfold download.
  apply keeps_bind; [apply keeps_modify, f_trace|intros _].
  apply keeps_bind; [apply keeps_lift|intros [status reads]].
  destruct (negb _); [apply keeps_raise|].
  apply keeps_bind; [apply keeps_gets|intros old].
  destruct (read_loop reads old sha512) as [[file hash] err].
  apply keeps_bind; [apply keeps_modify; intros w; apply f_tmp|intros _].
  destruct err; [apply keeps_raise|].
  destruct (negb _); [apply keeps_raise|apply keeps_modify, f_trace].
Qed.

Lemma fetch_proton_keeps (files : list (string * string)) :
  keeps f (_fetch_proton net tmpd files).
Proof.
  unfold _fetch_proton, getitem.
  apply keeps_bind; [destruct (files !! 0%nat); [apply keeps_ret|apply keeps_raise]|].
  intros [hash hash_url].
  apply keeps_bind; [destruct (files !! 1%nat); [apply keeps_ret|apply keeps_raise]|].
  intros [proton proton_url].
  destruct (_ || _); [apply keeps_raise|].
  apply keeps_bind; [apply keeps_modify, f_trace|intros _].
  apply keeps_bind; [apply keeps_lift|intros [status body]].
  apply keeps_bind.
  { destruct (negb _); [apply keeps_raise|].
    apply keeps_bind; [apply keeps_lift|intros; apply keeps_ret]. }
  intros digest.
  apply keeps_bind; [apply keeps_gets|intros zenity].
  apply keeps_bind.
  { destruct zenity; [|apply keeps_ret].
    apply keeps_bind; [apply keeps_modify, f_trace|intros _].
    apply keeps_bind; [apply keeps_lift|intros [code [[n bytes]|]]].
    - apply keeps_bind; [apply keeps_modify; intros w; apply f_tmp|intros; apply keeps_ret].
    - apply keeps_ret. }
  intros code.
  apply keeps_bind.
  { destruct (negb _); [|apply keeps_ret].
    apply unlink_tmp_keeps; assumption. }
  intros _.
  apply keeps_bind; [apply keeps_gets|intros unset].
  destruct (_ || _); [apply download_keeps|apply keeps_ret].
Qed.

End Staging.

Section Store.

Hypothesis f_store : forall s w, f (set_store s w) = f w.

Lemma submit_rmtrees_keeps (protons : list string) :
  keeps f (submit_rmtrees dir protons).
Proof.
  induction protons as [|p rest IH]; simpl; [apply keeps_ret|].
  apply keeps_bind; [apply keeps_gets|intros isd].
  destruct isd; [|exact IH].
  apply keeps_bind; [apply keeps_submit, rmtree_keeps; assumption|intros r].
  apply keeps_bind; [exact IH|intros; apply keeps_ret].
Qed.

Lemma join_all_keeps (futures : list (result unit)) : keeps f (join_all futures).
Proof.
  induction futures as [|r rest IH]; simpl; [apply keeps_ret|].
  apply keeps_bind; [apply keeps_lift|intros _; exact IH].
Qed.

Lemma update_proton_keeps (proton : string) (protons : list string) :
  keeps f (_update_proton dir proton protons).
Proof.
  unfold _update_proton.
  apply keeps_bind; [apply unlink_store_keeps; assumption|intros _].
  apply keeps_bind; [apply symlink_to_keeps; assumption|intros _].
  destruct protons; [apply keeps_ret|].
  apply keeps_bind; [apply submit_rmtrees_keeps|intros; apply join_all_keeps].
Qed.

Lemma finalize_keeps (version tarball proton : string) :
  keeps f (finalize net dir tmpd version tarball proton).
Proof.
  unfold finalize.
  destruct (String.eqb _ _); [|apply extract_dir_keeps; assumption].
  apply keeps_bind; [apply keeps_gets|intros protons].
  apply keeps_bind; [apply keeps_submit, extract_dir_keeps; assumption|intros f1].
  apply keeps_bind; [apply keeps_submit, update_proton_keeps|intros f2].
  apply keeps_bind; apply keeps_lift || (intros; apply keeps_lift).
Qed.

Hypothesis f_tmp : forall t w, f (set_tmp t w) = f w.

Lemma cleanup_keeps (tarball proton : string) :
  keeps f (_cleanup dir tmpd tarball proton).
Proof.
  unfold _cleanup.
  apply keeps_bind; [apply keeps_gets|intros is_file].
  apply keeps_bind.
  { destruct is_file; [apply unlink_tmp_keeps; assumption|apply keeps_ret]. }
  intros _.
  apply keeps_bind; [apply keeps_gets|intros isd].
  destruct isd; [apply rmtree_keeps; assumption|apply keeps_ret].
Qed.

Lemma get_latest_handler_keeps (files : list (string * string)) (e : exn)
    (h : M (option unit)) :
  get_latest_handler dir tmpd files e = Some h -> keeps f h.
Proof.
  unfold get_latest_handler, getitem.
  destruct (is_ValueError e).
  { intros [= <-].
    apply keeps_bind; [destruct (files !! 1%nat); [apply keeps_ret|apply keeps_raise]|].
    intros second.
    apply keeps_bind; [apply unlink_tmp_keeps; assumption|intros; apply keeps_ret]. }
  destruct (is_KeyboardInterrupt e).
  { intros [= <-].
    apply keeps_bind; [destruct (files !! 1%nat); [apply keeps_ret|apply keeps_raise]|].
    intros second.
    apply keeps_bind; [apply cleanup_keeps|intros; apply keeps_ret]. }
  destruct (is_HTTPException e); [|discriminate].
  intros [= <-]. apply keeps_ret.
Qed.

End Store.

End Frames.

(** ** One update attempt *)

Section Attempt.

Variable net : Remote.
Variables dir tmpd : string.

Lemma set_protonpath_run (path : string) (w : World) :
  set_protonpath path w
  = (set_env "PROTONPATH" path (set_environ "PROTONPATH" path w), Ret tt).
Proof.
  unfold set_protonpath, bind, modify, set_env, set_environ. simpl.
  rewrite lookup_insert_eq. reflexivity.
Qed.

Lemma body_no_second (files : list (string * string)) (w : World) :
  files !! 1%nat = None -> get_latest_body net dir tmpd files w = (w, Raise IndexError).
Proof.
  intros H. unfold get_latest_body, bind, getitem. rewrite H. reflexivity.
Qed.

Lemma body_unfold (files : list (string * string)) (tarball url : string)
    (w : World) :
  files !! 1%nat = Some (tarball, url) ->
  get_latest_body net dir tmpd files w =
  if is_dir (store w) (proton_of tarball) then
    (unlink_store dir "UMU-Latest" ;;;
     symlink_to dir "UMU-Latest" (proton_of tarball) ;;;
     set_protonpath (joinpath dir (proton_of tarball)) ;;;
     ret (Some tt)) w
  else
    (_fetch_proton net tmpd files ;;;
     finalize net dir tmpd (version_of w) tarball (proton_of tarball) ;;;
     set_protonpath (joinpath dir (proton_of tarball)) ;;;
     unlink_tmp tmpd tarball ;;;
     ret (Some tt)) w.
Proof.
  intros H. unfold get_latest_body at 1.
  unfold bind at 1, getitem. rewrite H. simpl.
  unfold bind at 1, gets. simpl.
  unfold bind at 1. simpl.
  unfold proton_of. destruct (is_dir _ _); reflexivity.
Qed.

(** The last three steps of an update cannot fail. *)
Lemma publish_run (tarball path : string) (w : World) :
  (set_protonpath path ;;; unlink_tmp tmpd tarball ;;; ret (Some tt)) w
  = ((unlink_tmp tmpd tarball (set_env "PROTONPATH" path (set_environ "PROTONPATH" path w))).1,
     Ret (Some tt)).
Proof.
  unfold bind at 1. rewrite set_protonpath_run.
  unfold bind, unlink_tmp, ret. simpl.
  destruct (tmp w !! tarball); reflexivity.
Qed.

(** A run of the fast path. *)
Lemma fast_path_inv (proton : string) (w w' : World) (r : result (option unit)) :
  (unlink_store dir "UMU-Latest" ;;;
   symlink_to dir "UMU-Latest" proton ;;;
   set_protonpath (joinpath dir proton) ;;;
   ret (Some tt)) w = (w', r) ->
  match r with
  | Ret o =>
      o = Some tt
      /\ store w !! "UMU-Latest" <> Some Dir
      /\ store w' = <["UMU-Latest" := Link proton]> (store w)
      /\ environ w' = <["PROTONPATH" := joinpath dir proton]> (environ w)
      /\ env w' = <["PROTONPATH" := joinpath dir proton]> (env w)
      /\ tmp w' = tmp w
  | Raise e =>
      e = OSError /\ w' = w /\ store w !! "UMU-Latest" = Some Dir
  end.
Proof.
  unfold bind at 1, unlink_store.
  destruct (store w !! "UMU-Latest") as [[| |t]|] eqn:E; simpl.
  - intros [= <- <-]. auto.
  - unfold bind at 1, symlink_to. simpl. rewrite lookup_delete_eq.
    unfold bind at 1. rewrite set_protonpath_run. unfold ret.
    intros [= <- <-]. simpl. rewrite insert_delete_eq.
    repeat split; congruence.
  - unfold bind at 1, symlink_to. simpl. rewrite lookup_delete_eq.
    unfold bind at 1. rewrite set_protonpath_run. unfold ret.
    intros [= <- <-]. simpl. rewrite insert_delete_eq.
    repeat split; congruence.
  - unfold bind at 1, symlink_to. simpl. rewrite E.
    unfold bind at 1. rewrite set_protonpath_run. unfold ret.
    intros [= <- <-]. simpl.
    repeat split; congruence.
Qed.

(** A run of the download path that returns. *)
Lemma update_inv (files : list (string * string)) (tarball : string)
    (version : string) (w w' : World) (o : option unit) :
  (_fetch_proton net tmpd files ;;;
   finalize net dir tmpd version tarball (proton_of tarball) ;;;
   set_protonpath (joinpath dir (proton_of tarball)) ;;;
   unlink_tmp tmpd tarball ;;;
   ret (Some tt)) w = (w', Ret o) ->
  exists w1 w2,
    _fetch_proton net tmpd files w = (w1, Ret tt)
    /\ finalize net dir tmpd version tarball (proton_of tarball) w1 = (w2, Ret tt)
    /\ o = Some tt
    /\ store w' = store w2
    /\ tmp w' !! tarball = None
    /\ environ w' = <["PROTONPATH" := joinpath dir (proton_of tarball)]> (environ w)
    /\ env w' = <["PROTONPATH" := joinpath dir (proton_of tarball)]> (env w).
Proof.
  intros H.
  apply bind_ret_inv in H as ([] & w1 & H1 & H).
  apply bind_ret_inv in H as ([] & w2 & H2 & H).
  rewrite publish_run in H. injection H as <- <-.
  exists w1, w2. repeat split; try assumption.
  - unfold unlink_tmp. simpl. destruct (tmp w2 !! tarball); reflexivity.
  - unfold unlink_tmp. simpl.
    destruct (tmp w2 !! tarball) eqn:E; simpl; [apply lookup_delete_eq|exact E].
  - transitivity (<["PROTONPATH" := joinpath dir (proton_of tarball)]> (environ w2)).
    + unfold unlink_tmp. simpl. destruct (tmp w2 !! tarball); reflexivity.
    + f_equal.
      rewrite (keeps_run environ _ _ _ _ (finalize_keeps net dir tmpd environ
                 ltac:(reflexivity) ltac:(reflexivity) _ _ _) H2).
      apply (keeps_run environ _ _ _ _ (fetch_proton_keeps net tmpd environ
                 ltac:(reflexivity) ltac:(reflexivity) _) H1).
  - transitivity (<["PROTONPATH" := joinpath dir (proton_of tarball)]> (env w2)).
    + unfold unlink_tmp. simpl. destruct (tmp w2 !! tarball); reflexivity.
    + f_equal.
      rewrite (keeps_run env _ _ _ _ (finalize_keeps net dir tmpd env
                 ltac:(reflexivity) ltac:(reflexivity) _ _ _) H2).
      apply (keeps_run env _ _ _ _ (fetch_proton_keeps net tmpd env
                 ltac:(reflexivity) ltac:(reflexivity) _) H1).
Qed.

(** A run of the download path that raises has not touched the caller's
    dictionary nor the process environment. *)
Lemma update_raise_keeps {C} (f : World -> C) (files : list (string * string))
    (tarball version : string) (w w' : World) (e : exn) :
  (forall ev w, f (emit ev w) = f w) ->
  (forall s w, f (set_store s w) = f w) ->
  (forall t w, f (set_tmp t w) = f w) ->
  (_fetch_proton net tmpd files ;;;
   finalize net dir tmpd version tarball (proton_of tarball) ;;;
   set_protonpath (joinpath dir (proton_of tarball)) ;;;
   unlink_tmp tmpd tarball ;;;
   ret (Some tt)) w = (w', Raise e) ->
  f w' = f w.
Proof.
  intros He Hs Ht H.
  apply bind_raise_inv in H as [H|([] & w1 & H1 & H)].
  { apply (keeps_run f _ _ _ _ (fetch_proton_keeps net tmpd f He Ht _) H). }
  rewrite <- (keeps_run f _ _ _ _ (fetch_proton_keeps net tmpd f He Ht _) H1).
  apply bind_raise_inv in H as [H|([] & w2 & H2 & H)].
  { apply (keeps_run f _ _ _ _ (finalize_keeps net dir tmpd f He Hs _ _ _) H). }
  rewrite publish_run in H. discriminate.
Qed.

(** What a returning attempt has done to the selection. *)
Lemma get_latest_selection (files : list (string * string)) (w w' : World)
    (o : option unit) :
  _get_latest net dir tmpd files w = (w', Ret o) ->
  match o with
  | Some _ =>
      exists tarball url,
        files !! 1%nat = Some (tarball, url)
        /\ environ w' = <["PROTONPATH" := joinpath dir (proton_of tarball)]> (environ w)
        /\ env w' = <["PROTONPATH" := joinpath dir (proton_of tarball)]> (env w)
  | None => environ w' = environ w /\ env w' = env w
  end.
Proof.
  unfold _get_latest. destruct files as [|first rest] eqn:Hfiles.
  { intros [= <- <-]. split; reflexivity. }
  rewrite <- Hfiles. clear Hfiles first rest.
  unfold try_except.
  destruct (get_latest_body net dir tmpd files w) as [w1 [o1|e]] eqn:Hbody.
  - intros [= <- <-].
    destruct (files !! 1%nat) as [[tarball url]|] eqn:Hsecond;
      [|rewrite body_no_second in Hbody by assumption; discriminate].
    rewrite (body_unfold files tarball url w Hsecond) in Hbody.
    destruct (is_dir (store w) (proton_of tarball)).
    + apply fast_path_inv in Hbody as (-> & _ & _ & Henv & Hdict & _).
      exists tarball, url. auto.
    + apply update_inv in Hbody as (w2 & w3 & _ & _ & -> & _ & _ & Henv & Hdict).
      exists tarball, url. auto.
  - assert (Hframe : environ w1 = environ w /\ env w1 = env w).
    { destruct (files !! 1%nat) as [[tarball url]|] eqn:Hsecond;
        [|rewrite body_no_second in Hbody by assumption;
          injection Hbody as <- _; split; reflexivity].
      rewrite (body_unfold files tarball url w Hsecond) in Hbody.
      destruct (is_dir (store w) (proton_of tarball)).
      - apply fast_path_inv in Hbody as (_ & -> & _). split; reflexivity.
      - split; eapply update_raise_keeps; try exact Hbody; reflexivity. }
    destruct Hframe as [Henv Hdict].
    destruct (get_latest_handler dir tmpd files e) as [h|] eqn:Hh; [|discriminate].
    intros Hrun.
    pose proof (keeps_run environ _ _ _ _
      (get_latest_handler_keeps dir tmpd environ ltac:(reflexivity)
         ltac:(reflexivity) ltac:(reflexivity) files e h Hh) Hrun) as E1.
    pose proof (keeps_run env _ _ _ _
      (get_latest_handler_keeps dir tmpd env ltac:(reflexivity)
         ltac:(reflexivity) ltac:(reflexivity) files e h Hh) Hrun) as E2.
    assert (o = None) as ->.
    { revert Hh Hrun. unfold get_latest_handler.
      destruct (is_ValueError e); [intros [= <-]|
        destruct (is_KeyboardInterrupt e); [intros [= <-]|
          destruct (is_HTTPException e); [intros [= <-]|discriminate]]];
        intros Hrun.
      - apply bind_ret_inv in Hrun as (x & wx & _ & Hrun).
        apply bind_ret_inv in Hrun as (y & wy & _ & Hrun).
        injection Hrun as _ <-. reflexivity.
      - apply bind_ret_inv in Hrun as (x & wx & _ & Hrun).
        apply bind_ret_inv in Hrun as (y & wy & _ & Hrun).
        injection Hrun as _ <-. reflexivity.
      - injection Hrun as _ <-. reflexivity. }
    split; congruence.
Qed.

End Attempt.





(** ** The entry point *)

Lemma try_fetch_releases_inv (net : Remote) (w w1 : World)
    (files : list (string * string)) :
  try_except (_fetch_releases net)
    (fun e => if is_URLError e then Some (ret []) else None) w = (w1, Ret files) ->
  environ w1 = environ w /\ env w1 = env w /\ store w1 = store w /\ tmp w1 = tmp w
  /\ trace w1 = Urlopen (index_url w) :: trace w
  /\ ((_fetch_releases net w).2 = Ret files \/ files = []).
Proof.
  unfold try_except. rewrite fetch_releases_unfold.
  destruct (release_index net (index_url w)) as [[status body]|e]; simpl.
  - destruct (status =? 200).
    + destruct body as [rs|e].
      * destruct (length (scan_releases rs []) =? 2)%nat.
        -- intros [= <- <-]. repeat split; auto.
        -- discriminate.
      * destruct (is_URLError e); [|discriminate].
        intros [= <- <-]. repeat split; auto.
    + intros [= <- <-]. repeat split; auto.
  - destruct (is_URLError e); [|discriminate].
    intros [= <- <-]. repeat split; auto.
Qed.

Lemma try_fetch_releases_run (net : Remote) (w0 : World)
    (files : list (string * string)) :
  ((_fetch_releases net w0).2 = Ret files
   \/ files = []
      /\ exists e, (_fetch_releases net w0).2 = Raise e /\ is_URLError e = true) ->
  try_except (_fetch_releases net)
    (fun e => if is_URLError e then Some (ret []) else None) w0
  = (emit (Urlopen (index_url w0)) w0, Ret files).
Proof.
  unfold try_except. rewrite fetch_releases_unfold. cbn [snd].
  intros [H|(-> & e & H & He)]; rewrite H; [reflexivity|].
  rewrite He. reflexivity.
Qed.

(** What the fallback does in a world [wa], in terms of the builds of the
    store that match the vendor. *)
Lemma get_from_steamcompat_run (dir : string) (wa : World) :
  let matches n :=
    is_Some (store wa !! n) /\ Py.startswith n (version_of wa) = true in
  ((exists n, matches n) ->
   exists latest,
     matches latest /\ (forall n, matches n -> (n ≤ latest)%string)
     /\ _get_from_steamcompat dir wa
        = (set_env "PROTONPATH" (joinpath dir latest)
             (set_environ "PROTONPATH" (joinpath dir latest) wa), Ret (Some tt)))
  /\ ((forall n, ~ matches n) ->
      _get_from_steamcompat dir wa = (wa, Ret None)).
Proof.
  intros matches. unfold _get_from_steamcompat.
  change (bind (gets ?f) ?k wa) with (k (f wa) wa). cbv beta.
  change (bind (gets ?f) ?k wa) with (k (f wa) wa). cbv beta.
  pose proof (elem_of_glob_filter (store wa)
                (fun p => Py.startswith p (version_of wa))) as Hmem.
  destruct (filter _ (glob (store wa))) as [|first others] eqn:Hf.
  - split; [|reflexivity].
    intros [n Hn]. apply Hmem in Hn. inversion Hn.
  - split.
    + intros _. destruct (fold_later_max others first) as [Hin Hmax].
      exists (fold_left later others first). split; [|split].
      * apply Hmem in Hin. exact Hin.
      * intros n Hn. apply Hmax, Hmem, Hn.
      * unfold bind at 1. rewrite set_protonpath_run. reflexivity.
    + intros Hnone. exfalso. apply (Hnone first). apply Hmem. left.
Qed.

(** C10.  [get_umu_proton] on the files that the index query yields
    ([files] is empty when the query fails with a [URLError] or is answered
    with a status other than 200).

    - If the attempt on these files returns the dictionary (fresh download
      or build already present), [get_umu_proton] returns in the world
      that the attempt leaves, where the process environment and the
      caller's dictionary hold, under [PROTONPATH], the path of the build
      named by the archive.
    - If the attempt returns [None], [get_umu_proton] returns and leaves
      the store as the attempt left it.  When a build of the store matches
      the vendor, [PROTONPATH] is the path of the greatest matching name,
      in the process environment and in the caller's dictionary.  When
      none matches, [PROTONPATH] is the empty string in the process
      environment and the caller's dictionary is as it was passed.
    - With no files the attempt returns [None] at once.
    - An error of the attempt is the error of [get_umu_proton]. *)
Theorem get_umu_proton_protonpath (net : Remote) (dir tmpd : string)
    (w : World) (files : list (string * string)) :
  let w1 := emit (Urlopen (index_url w)) (set_tmp ∅ w) in
  let attempt := _get_latest net dir tmpd files w1 in
  let run := get_umu_proton net dir tmpd w in
  let matches n :=
    is_Some (store attempt.1 !! n) /\ Py.startswith n (version_of w) = true in
  let selected w' build :=
    environ w' !! "PROTONPATH" = Some (joinpath dir build)
    /\ env w' = <["PROTONPATH" := joinpath dir build]> (env w) in
  ((_fetch_releases net (set_tmp ∅ w)).2 = Ret files
   \/ files = []
      /\ exists e, (_fetch_releases net (set_tmp ∅ w)).2 = Raise e
                   /\ is_URLError e = true) ->
  (attempt.2 = Ret (Some tt) ->
   run = (attempt.1, Ret tt)
   /\ exists tarball url,
        files !! 1%nat = Some (tarball, url)
        /\ selected attempt.1 (proton_of tarball))
  /\ (attempt.2 = Ret None ->
      run.2 = Ret tt
      /\ store run.1 = store attempt.1
      /\ ((exists n, matches n) ->
          exists latest,
            matches latest /\ (forall n, matches n -> (n ≤ latest)%string)
            /\ selected run.1 latest)
      /\ ((forall n, ~ matches n) ->
          environ run.1 !! "PROTONPATH" = Some "" /\ env run.1 = env w))
  /\ (files = [] -> attempt = (w1, Ret None))
  /\ (forall e, attempt.2 = Raise e -> run = (attempt.1, Raise e)).
Proof.
  intros w1 attempt run matches selected Hfiles.
  apply try_fetch_releases_run in Hfiles.
  change (emit (Urlopen (index_url (set_tmp ∅ w))) (set_tmp ∅ w)) with w1 in Hfiles.
  assert (Hrun : run = match attempt with
                       | (wa, Ret (Some _)) => (wa, Ret tt)
                       | (wa, Ret None) =>
                           match _get_from_steamcompat dir wa with
                           | (wb, Ret (Some _)) => (wb, Ret tt)
                           | (wb, Ret None) =>
                               (set_environ "PROTONPATH" "" wb, Ret tt)
                           | (wb, Raise e) => (wb, Raise e)
                           end
                       | (wa, Raise e) => (wa, Raise e)
                       end).
  { subst run attempt. unfold get_umu_proton.
    unfold bind at 1, modify.
    rewrite (bind_run _ _ _ _ _ Hfiles).
    unfold bind at 1.
    destruct (_get_latest net dir tmpd files w1) as [wa [[[]|]|e]];
      [reflexivity| |reflexivity].
    unfold bind at 1.
    destruct (_get_from_steamcompat dir wa) as [wb [[[]|]|e]]; reflexivity. }
  destruct attempt as [wa ra] eqn:Hattempt. cbn [fst snd] in *.
  split; [|split; [|split]].
  - intros ->. split; [exact Hrun|].
    apply get_latest_selection in Hattempt
      as (tarball & url & Hsecond & Henv & Hdict).
    exists tarball, url. split; [exact Hsecond|]. split.
    + rewrite Henv. apply lookup_insert_eq.
    + rewrite Hdict. reflexivity.
  - intros ->.
    apply get_latest_selection in Hattempt as [Henv Hdict].
    cbn [environ env emit set_tmp] in Henv, Hdict.
    assert (Hversion : version_of wa = version_of w).
    { unfold version_of. rewrite Henv. reflexivity. }
    destruct (get_from_steamcompat_run dir wa) as [Hsome Hnone].
    rewrite Hversion in Hsome, Hnone.
    assert (Hcases : (exists n, matches n) \/ (forall n, ~ matches n)).
    { pose proof (elem_of_glob_filter (store wa)
                    (fun p => Py.startswith p (version_of w))) as Hmem.
      destruct (filter _ (glob (store wa))) as [|first others] eqn:Hf.
      - right. intros n Hn. apply Hmem in Hn. inversion Hn.
      - left. exists first. apply Hmem. left. }
    destruct Hcases as [Hex|Hno].
    + destruct (Hsome Hex) as (latest & Hl & Hmax & Hfb).
      rewrite Hfb in Hrun. rewrite Hrun. cbn [fst snd].
      split; [reflexivity|]. split; [reflexivity|]. split.
      * intros _. exists latest. split; [exact Hl|]. split; [exact Hmax|].
        split; [apply lookup_insert_eq|]. cbn. rewrite Hdict. reflexivity.
      * intros Hnone'. exfalso. destruct Hex as [n Hn]. exact (Hnone' n Hn).
    + rewrite (Hnone Hno) in Hrun. rewrite Hrun. cbn [fst snd].
      split; [reflexivity|]. split; [reflexivity|]. split.
      * intros [n Hn]. exfalso. exact (Hno n Hn).
      * intros _. split; [apply lookup_insert_eq|]. cbn. exact Hdict.
  - intros ->. unfold _get_latest in Hattempt. injection Hattempt as <- <-.
    reflexivity.
  - intros e ->. exact Hrun.
Qed.

Lemma get_umu_proton_protonpath_witness :
  get_umu_proton Sample.umu_remote Sample.compat Sample.staging
    (Sample.world ∅ Sample.old_store)
  = ((_get_latest Sample.umu_remote Sample.compat Sample.staging
        Sample.umu_files
        (emit (Urlopen (index_url (Sample.world ∅ Sample.old_store)))
           (set_tmp ∅ (Sample.world ∅ Sample.old_store)))).1, Ret tt).
Proof.
  destruct (get_umu_proton_protonpath Sample.umu_remote Sample.compat
              Sample.staging (Sample.world ∅ Sample.old_store)
              Sample.umu_files) as [H _].
  - left. vm_compute. reflexivity.
  - apply H. vm_compute. reflexivity.
Defined.

(** ** The build is already installed *)




Section UpToDate.

Variable net : Remote.
Variables dir tmpd : string.



End UpToDate.



(** ** Extraction and retirement *)

Lemma is_dir_mono (s s' : gmap string entry) (n : string) :
  (forall k, s' !! k = s !! k \/ s' !! k = None) ->
  is_dir s' n = true -> is_dir s n = true.
Proof.
  intros Hsub. unfold is_dir.
  destruct (Hsub n) as [->| ->]; [|discriminate].
  destruct (s !! n) as [[| |t]|]; try discriminate; [reflexivity|].
  destruct (Hsub t) as [->| ->]; [|discriminate]. auto.
Qed.

Lemma extract_members_preserves (made : list string) (s : gmap string entry) :
  forall n e, s !! n = Some e -> extract_members made s !! n = Some e.
Proof.
  revert s. induction made as [|d rest IH]; intros s n e Hn; simpl.
  - exact Hn.
  - destruct (s !! d) eqn:E.
    + apply IH. exact Hn.
    + apply IH. rewrite lookup_insert_ne; [exact Hn|]. congruence.
Qed.

(** Extraction only adds: an entry of the result is either the one that was
    there or a new directory, under a name of the archive that was free. *)
Lemma extract_members_lookup (made : list string) (s : gmap string entry)
    (k : string) :
  extract_members made s !! k = s !! k
  \/ (s !! k = None /\ extract_members made s !! k = Some Dir /\ k ∈ made).
Proof.
  revert s. induction made as [|d rest IH]; intros s; simpl.
  - left. reflexivity.
  - destruct (s !! d) eqn:E.
    + destruct (IH s) as [H|(H1 & H2 & H3)]; [left; exact H|].
      right. split; [exact H1|]. split; [exact H2|]. right. exact H3.
    + destruct (decide (k = d)) as [->|Hne].
      * right. split; [exact E|]. split; [|left].
        apply extract_members_preserves, lookup_insert_eq.
      * destruct (IH (<[d := Dir]> s)) as [H|(H1 & H2 & H3)].
        -- left. rewrite H. apply lookup_insert_ne. congruence.
        -- right. rewrite lookup_insert_ne in H1 by congruence.
           split; [exact H1|]. split; [exact H2|]. right. exact H3.
Qed.

Lemma extract_members_single (d : string) (s : gmap string entry) :
  extract_members [d] s = match s !! d with
                          | None => <[d := Dir]> s
                          | Some _ => s
                          end.
Proof. simpl. destruct (s !! d); reflexivity. Qed.

Lemma extract_members_single_other (d n : string) (s : gmap string entry) :
  n <> d -> extract_members [d] s !! n = s !! n.
Proof.
  intros Hne. rewrite extract_members_single.
  destruct (s !! d); [reflexivity|]. apply lookup_insert_ne. congruence.
Qed.

Section Finalize.

Variable net : Remote.
Variables dir tmpd : string.

Lemma extract_dir_inv (file : string) (w w' : World) :
  _extract_dir net tmpd file w = (w', Ret tt) ->
  exists bytes,
    tmp w !! file = Some bytes
    /\ (tar net bytes).2 = None
    /\ store w' = extract_members (tar net bytes).1 (store w).
Proof.
  unfold _extract_dir. destruct (tmp w !! file) as [bytes|]; [|discriminate].
  destruct (tar net bytes) as [made err] eqn:Et. simpl.
  destruct err; [discriminate|].
  intros [= <-]. exists bytes. rewrite Et. simpl. auto.
Qed.

Lemma submit_rmtrees_run (protons : list string) (w : World) :
  exists w' futures,
    submit_rmtrees dir protons w = (w', Ret futures)
    /\ (forall k, store w' !! k = store w !! k
                  \/ (store w' !! k = None /\ k ∈ protons))
    /\ (Forall (fun f => f = Ret tt) futures ->
        forall n, n ∈ protons -> is_dir (store w') n = false).
Proof.
  revert w. induction protons as [|p rest IH]; intros w; simpl.
  - exists w, []. split; [reflexivity|]. split; [auto|].
    intros _ n Hn. inversion Hn.
  - change (bind (gets ?f) ?k w) with (k (f w) w). cbv beta.
    destruct (is_dir (store w) p) eqn:Hdir.
    + unfold bind at 1, submit, rmtree.
      unfold is_dir in Hdir.
      destruct (store w !! p) as [[| |t]|] eqn:E; try discriminate.
      * destruct (IH (emit (Rmtree (joinpath dir p))
                        (set_store (delete p (store w)) w)))
          as (w' & fs & Hrun & Hsub & Hgone).
        exists w', (Ret tt :: fs). rewrite (bind_run _ _ _ _ _ Hrun).
        split; [reflexivity|]. simpl in Hsub. split.
        -- intros k. destruct (Hsub k) as [Hk|[Hk Hin]].
           ++ destruct (decide (k = p)) as [->|Hne].
              ** right. rewrite Hk, lookup_delete_eq. split; [reflexivity|left].
              ** left. rewrite Hk, lookup_delete_ne by congruence. reflexivity.
           ++ right. split; [exact Hk|right; exact Hin].
        -- intros Hall n Hn. apply Forall_cons in Hall as [_ Hall].
           apply elem_of_cons in Hn as [->|Hn]; [|apply Hgone; assumption].
           unfold is_dir.
           destruct (Hsub p) as [Hk|[Hk _]]; rewrite Hk; [|reflexivity].
           rewrite lookup_delete_eq. reflexivity.
      * destruct (IH w) as (w' & fs & Hrun & Hsub & Hgone).
        exists w', (Raise OSError :: fs). rewrite (bind_run _ _ _ _ _ Hrun).
        split; [reflexivity|]. split.
        -- intros k. destruct (Hsub k) as [Hk|[Hk Hin]]; [left; exact Hk|].
           right. split; [exact Hk|right; exact Hin].
        -- intros Hall. apply Forall_cons in Hall as [Hbad _]. discriminate.
    + destruct (IH w) as (w' & fs & Hrun & Hsub & Hgone).
      exists w', fs. split; [exact Hrun|]. split.
      * intros k. destruct (Hsub k) as [Hk|[Hk Hin]]; [left; exact Hk|].
        right. split; [exact Hk|right; exact Hin].
      * intros Hall n Hn.
        apply elem_of_cons in Hn as [->|Hn]; [|apply Hgone; assumption].
        destruct (is_dir (store w') p) eqn:Hafter; [|reflexivity].
        apply (is_dir_mono (store w)) in Hafter; [congruence|].
        intros k. destruct (Hsub k) as [Hk|[Hk _]]; auto.
Qed.

Lemma join_all_inv (futures : list (result unit)) (w w' : World) :
  join_all futures w = (w', Ret tt) ->
  w' = w /\ Forall (fun f => f = Ret tt) futures.
Proof.
  induction futures as [|f rest IH]; simpl.
  - intros [= <-]. auto.
  - unfold bind, future_result, lift. destruct f as [[]|e]; [|discriminate].
    intros H. destruct (IH H) as [-> Hall]. auto.
Qed.

Lemma update_proton_inv (proton : string) (protons : list string)
    (w w' : World) :
  _update_proton dir proton protons w = (w', Ret tt) ->
  store w !! "UMU-Latest" <> Some Dir
  /\ (forall k, store w' !! k = <["UMU-Latest" := Link proton]> (store w) !! k
                \/ (store w' !! k = None /\ k ∈ protons))
  /\ (forall n, n ∈ protons -> is_dir (store w') n = false).
Proof.
  unfold _update_proton. intros H.
  apply bind_ret_inv in H as ([] & w1 & H1 & H).
  apply bind_ret_inv in H as ([] & w2 & H2 & H).
  assert (Halias : store w !! "UMU-Latest" <> Some Dir
                   /\ store w2 = <["UMU-Latest" := Link proton]> (store w)).
  { revert H1 H2. unfold unlink_store, symlink_to.
    destruct (store w !! "UMU-Latest") as [[| |t]|] eqn:E; try discriminate.
    - intros [= <-]. simpl. rewrite lookup_delete_eq. intros [= <-]. simpl.
      rewrite insert_delete_eq. split; [discriminate|reflexivity].
    - intros [= <-]. simpl. rewrite lookup_delete_eq. intros [= <-]. simpl.
      rewrite insert_delete_eq. split; [discriminate|reflexivity].
    - intros [= <-]. rewrite E. intros [= <-]. simpl.
      split; [discriminate|reflexivity]. }
  destruct Halias as [Halias Hs2]. split; [exact Halias|].
  destruct protons as [|p rest].
  - injection H as <-. rewrite Hs2. split; [auto|].
    intros n Hn. inversion Hn.
  - destruct (submit_rmtrees_run (p :: rest) w2) as (w3 & fs & Hrun & Hsub & Hgone).
    rewrite (bind_run _ _ _ _ _ Hrun) in H.
    apply join_all_inv in H as [-> Hall].
    rewrite <- Hs2. split; [exact Hsub|]. apply Hgone, Hall.
Qed.

(** The finalize step for the vendor whose builds are retired. *)
Lemma finalize_umu_inv (tarball proton : string) (w w' : World) :
  finalize net dir tmpd "UMU-Proton" tarball proton w = (w', Ret tt) ->
  exists bytes s1,
    tmp w !! tarball = Some bytes
    /\ s1 = extract_members (tar net bytes).1 (store w)
    /\ s1 !! "UMU-Latest" <> Some Dir
    /\ (forall k, store w' !! k = <["UMU-Latest" := Link proton]> s1 !! k
                  \/ (store w' !! k = None
                      /\ is_Some (store w !! k) /\ retirable k = true))
    /\ (forall n, is_Some (store w !! n) -> retirable n = true ->
                  is_dir (store w') n = false).
Proof.
  unfold finalize. simpl.
  change (bind (gets ?f) ?k w) with (k (f w) w). cbv beta.
  intros H.
  apply bind_ret_inv in H as (f1 & w1 & H1 & H).
  apply bind_ret_inv in H as (f2 & w2 & H2 & H).
  apply bind_ret_inv in H as ([] & w3 & H3 & H).
  unfold future_result, lift in H3, H. injection H3 as <- ->.
  injection H as <- ->.
  unfold submit in H1, H2.
  destruct (_extract_dir net tmpd tarball w) as [w1' r1] eqn:E1.
  injection H1 as <- ->.
  destruct (_update_proton dir proton _ w1') as [w2' r2] eqn:E2.
  injection H2 as <- ->.
  apply extract_dir_inv in E1 as (bytes & Htmp & _ & Hex).
  apply update_proton_inv in E2 as (Halias & Hsub & Hgone).
  exists bytes, (store w1'). repeat split; try assumption.
  - intros k. destruct (Hsub k) as [Hk|[Hk Hin]]; [left; exact Hk|].
    right. apply (elem_of_glob_filter (store w) retirable) in Hin.
    split; [exact Hk|exact Hin].
  - intros n Hn Hr. apply Hgone.
    apply (elem_of_glob_filter (store w) retirable). auto.
Qed.

Lemma handler_returns_none (files : list (string * string)) (e : exn)
    (h : M (option unit)) (w w' : World) (o : option unit) :
  get_latest_handler dir tmpd files e = Some h ->
  h w = (w', Ret o) -> o = None.
Proof.
  unfold get_latest_handler.
  destruct (is_ValueError e); [intros [= <-]|
    destruct (is_KeyboardInterrupt e); [intros [= <-]|
      destruct (is_HTTPException e); [intros [= <-]|discriminate]]];
    intros Hrun.
  - apply bind_ret_inv in Hrun as (x & wx & _ & Hrun).
    apply bind_ret_inv in Hrun as (y & wy & _ & Hrun).
    injection Hrun as _ <-. reflexivity.
  - apply bind_ret_inv in Hrun as (x & wx & _ & Hrun).
    apply bind_ret_inv in Hrun as (y & wy & _ & Hrun).
    injection Hrun as _ <-. reflexivity.
  - injection Hrun as _ <-. reflexivity.
Qed.

(** A successful update, taken apart. *)
Lemma successful_update_inv (files : list (string * string))
    (tarball url : string) (w w' : World) :
  files !! 1%nat = Some (tarball, url) ->
  is_dir (store w) (proton_of tarball) = false ->
  _get_latest net dir tmpd files w = (w', Ret (Some tt)) ->
  exists w1 w2,
    store w1 = store w
    /\ environ w1 = environ w
    /\ finalize net dir tmpd (version_of w) tarball (proton_of tarball) w1
       = (w2, Ret tt)
    /\ store w' = store w2
    /\ tmp w' !! tarball = None.
Proof.
  intros Hsecond Hdir. unfold _get_latest.
  destruct files as [|first rest] eqn:Hf; [discriminate|]. rewrite <- Hf in *.
  unfold try_except.
  destruct (get_latest_body net dir tmpd files w) as [w0 [o|e]] eqn:Hbody.
  - intros [= <- ->].
    rewrite (body_unfold net dir tmpd files tarball url w Hsecond), Hdir in Hbody.
    apply update_inv in Hbody as (w1 & w2 & H1 & H2 & _ & Hs & Ht & _).
    exists w1, w2. repeat split; try assumption.
    + apply (keeps_run store _ _ _ _ (fetch_proton_keeps net tmpd store
               ltac:(reflexivity) ltac:(reflexivity) _) H1).
    + apply (keeps_run environ _ _ _ _ (fetch_proton_keeps net tmpd environ
               ltac:(reflexivity) ltac:(reflexivity) _) H1).
  - destruct (get_latest_handler dir tmpd files e) as [h|] eqn:Hh; [|discriminate].
    intros Hrun. apply (handler_returns_none _ _ _ _ _ _ Hh) in Hrun. discriminate.
Qed.

End Finalize.

Lemma version_of_cases (w : World) :
  version_of w = "UMU-Proton" \/ version_of w = "GE-Proton".
Proof. unfold version_of. destruct (bool_decide _); auto. Qed.

(** C8.  After a successful update for UMU-Proton, given that the archive
    unpacks into the directory named after it, no directory of the store
    has a name that starts with [UMU-Proton] or [ULWGL-Proton] other than
    the new build.  After a successful update for GE-Proton, every entry
    that the store had is still there, unchanged. *)
Theorem update_retires_only_umu_builds (net : Remote) (dir tmpd : string)
    (files : list (string * string)) (tarball url : string) (w w' : World) :
  files !! 1%nat = Some (tarball, url) ->
  is_dir (store w) (proton_of tarball) = false ->
  _get_latest net dir tmpd files w = (w', Ret (Some tt)) ->
  (version_of w = "UMU-Proton" ->
   (forall bytes, (tar net bytes).1 = [proton_of tarball]) ->
   forall n, is_dir (store w') n = true -> retirable n = true ->
             n = proton_of tarball)
  /\ (version_of w = "GE-Proton" ->
      forall n e, store w !! n = Some e -> store w' !! n = Some e).
Proof.
  intros Hsecond Hdir Hrun.
  destruct (successful_update_inv net dir tmpd files tarball url w w'
              Hsecond Hdir Hrun) as (w1 & w2 & Hs1 & _ & Hfin & Hs' & _).
  split.
  - intros Hv Htar n Hn Hr. rewrite Hv in Hfin.
    apply finalize_umu_inv in Hfin as (bytes & s1 & _ & Hex & _ & Hsub & Hgone).
    rewrite Htar, Hs1 in Hex. subst s1.
    destruct (decide (n = proton_of tarball)) as [|Hne]; [assumption|exfalso].
    rewrite Hs' in Hn.
    assert (Hsome : is_Some (store w !! n)).
    { destruct (Hsub n) as [Hk|[Hk _]].
      - assert (n <> "UMU-Latest") by (intros ->; discriminate).
        rewrite lookup_insert_ne in Hk by congruence.
        rewrite extract_members_single_other in Hk by exact Hne.
        rewrite <- Hk. unfold is_dir in Hn.
        destruct (store w2 !! n); [eauto|discriminate].
      - unfold is_dir in Hn. rewrite Hk in Hn. discriminate. }
    rewrite <- Hs1 in Hsome. rewrite (Hgone n Hsome Hr) in Hn. discriminate.
  - intros Hv n e Hn. rewrite Hv in Hfin. unfold finalize in Hfin. simpl in Hfin.
    apply extract_dir_inv in Hfin as (bytes & _ & _ & Hex).
    rewrite Hs', Hex. apply extract_members_preserves.
    rewrite Hs1. exact Hn.
Qed.

Lemma update_retires_only_umu_builds_witness :
  let w := Sample.world ∅ Sample.old_store in
  let w' := (_get_latest Sample.umu_remote Sample.compat Sample.staging
               Sample.umu_files w).1 in
  is_dir (store w) "UMU-Proton-8.0" = true
  /\ is_dir (store w') "UMU-Proton-8.0" = false.
Proof.
  intros w w'. split; [reflexivity|].
  destruct (is_dir (store w') "UMU-Proton-8.0") eqn:E; [exfalso|reflexivity].
  assert (H : "UMU-Proton-8.0" = "UMU-Proton-9.0"); [|discriminate H].
  apply (proj1 (update_retires_only_umu_builds Sample.umu_remote Sample.compat
           Sample.staging Sample.umu_files "UMU-Proton-9.0.tar.gz"
           "https://github.com/umu/9.0.tar.gz" w w'
           eq_refl eq_refl ltac:(vm_compute; reflexivity))).
  - reflexivity.
  - intros bytes. reflexivity.
  - exact E.
  - reflexivity.
Defined.

(** ** The name of the build directory *)

Lemma take_app_length (d s : string) : Py.take (String.length d) (d +:+ s) = d.
Proof.
  induction d as [|c d IH]; [destruct s; reflexivity|].
  change (String c d +:+ s) with (String c (d +:+ s)). simpl. f_equal. exact IH.
Qed.

Lemma startswith_nil (s : string) : Py.startswith s "" = true.
Proof. destruct s; reflexivity. Qed.

(** [".tar.gz"] has no border: it cannot start inside a name and end in
    the suffix that follows it. *)
Lemma targz_no_border (d : string) :
  d <> EmptyString ->
  Py.startswith d ".tar.gz" = false ->
  Py.startswith (d +:+ ".tar.gz") ".tar.gz" = false.
Proof.
  intros Hne.
  destruct d as [|c1 [|c2 [|c3 [|c4 [|c5 [|c6 [|c7 d]]]]]]]; [contradiction|..];
    cbv [String.append]; cbn [Py.startswith]; rewrite ?startswith_nil; intros H;
    repeat match goal with
           | |- context [Ascii.eqb ?a ?b] =>
               destruct (Ascii.eqb a b) eqn:?; cbn [andb] in *
           end;
    try reflexivity; try discriminate;
    match goal with
    | E : Ascii.eqb _ _ = true |- _ => vm_compute in E; discriminate
    end.
Qed.

Lemma find_from_suffix (d : string) (i : Z) :
  0 <= i ->
  Py.find_from i d ".tar.gz" = -1 ->
  Py.find_from i (d +:+ ".tar.gz") ".tar.gz" = i + Z.of_nat (String.length d).
Proof.
  revert i. induction d as [|c d IH]; intros i Hi.
  - intros _. simpl. lia.
  - intros H.
    assert (Hstart : Py.startswith (String c d) ".tar.gz" = false).
    { cbn [Py.find_from] in H.
      destruct (Py.startswith (String c d) ".tar.gz"); [lia|reflexivity]. }
    cbn [Py.find_from] in H. rewrite Hstart in H.
    change (String c d +:+ ".tar.gz") with (String c (d +:+ ".tar.gz")).
    cbn [Py.find_from].
    change (String c (d +:+ ".tar.gz")) with (String c d +:+ ".tar.gz") at 1.
    rewrite (targz_no_border (String c d) ltac:(discriminate) Hstart).
    rewrite (IH (i + 1)) by (lia || exact H).
    cbn [String.length]. lia.
Qed.

Lemma proton_of_suffix (d : string) :
  Py.find d ".tar.gz" = -1 -> proton_of (d +:+ ".tar.gz") = d.
Proof.
  intros H. unfold proton_of, Py.find.
  rewrite (find_from_suffix d 0 ltac:(lia) H). unfold Py.slice_to.
  destruct (Z.ltb_spec (0 + Z.of_nat (String.length d)) 0) as [Hlt|_]; [lia|].
  replace (Z.to_nat (0 + Z.of_nat (String.length d))) with (String.length d) by lia.
  apply take_app_length.
Qed.

(** X12.  After a successful update from an archive named [d.tar.gz],
    where [d] itself contains no [".tar.gz"], the name [d] was free in the
    store and the archive unpacks into the directory [d]: the build
    directory [d] is in the store and is the archive name without its
    suffix, and the staging archive is gone.  For UMU-Proton the alias
    [UMU-Latest] points at [d]; for GE-Proton the update leaves the alias
    as it was. *)
Theorem update_publishes_build (net : Remote) (dir tmpd : string)
    (files : list (string * string)) (d url : string) (w w' : World) :
  files !! 1%nat = Some (d +:+ ".tar.gz", url) ->
  Py.find d ".tar.gz" = -1 ->
  store w !! d = None ->
  (forall bytes, (tar net bytes).1 = [d]) ->
  _get_latest net dir tmpd files w = (w', Ret (Some tt)) ->
  proton_of (d +:+ ".tar.gz") = d
  /\ store w' !! d = Some Dir
  /\ tmp w' !! (d +:+ ".tar.gz") = None
  /\ (version_of w = "UMU-Proton" ->
      store w' !! "UMU-Latest" = Some (Link d))
  /\ (version_of w = "GE-Proton" -> d <> "UMU-Latest" ->
      store w' !! "UMU-Latest" = store w !! "UMU-Latest").
Proof.
  intros Hsecond Hname Hfree Htar Hrun.
  assert (Hdir : is_dir (store w) d = false).
  { unfold is_dir. rewrite Hfree. reflexivity. }
  pose proof (proton_of_suffix d Hname) as Hp.
  split; [exact Hp|].
  rewrite <- Hp in Hdir.
  destruct (successful_update_inv net dir tmpd files _ url w w'
              Hsecond Hdir Hrun) as (w1 & w2 & Hs1 & _ & Hfin & Hs' & Htmp).
  rewrite Hp in Hfin, Hdir.
  assert (Hex1 : extract_members [d] (store w) = <[d := Dir]> (store w)).
  { rewrite extract_members_single, Hfree. reflexivity. }
  split; [|split; [exact Htmp|split]].
  - destruct (version_of_cases w) as [Hv|Hv]; rewrite Hv in Hfin.
    + apply finalize_umu_inv in Hfin as (bytes & s1 & _ & Hex & Halias & Hsub & _).
      rewrite Htar, Hs1, Hex1 in Hex. subst s1.
      assert (Hne : d <> "UMU-Latest").
      { intros ->. apply Halias. apply lookup_insert_eq. }
      rewrite Hs'. destruct (Hsub d) as [Hk|[_ [[e He] _]]].
      * rewrite Hk, lookup_insert_ne, lookup_insert_eq by congruence. reflexivity.
      * rewrite Hs1 in He. congruence.
    + unfold finalize in Hfin. simpl in Hfin.
      apply extract_dir_inv in Hfin as (bytes & _ & _ & Hex).
      rewrite Htar, Hs1, Hex1 in Hex.
      rewrite Hs', Hex. apply lookup_insert_eq.
  - intros Hv. rewrite Hv in Hfin.
    apply finalize_umu_inv in Hfin as (bytes & s1 & _ & _ & _ & Hsub & _).
    rewrite Hs'. destruct (Hsub "UMU-Latest") as [Hk|[_ [_ Hr]]].
    + rewrite Hk. apply lookup_insert_eq.
    + discriminate.
  - intros Hv Hne. rewrite Hv in Hfin. unfold finalize in Hfin. simpl in Hfin.
    apply extract_dir_inv in Hfin as (bytes & _ & _ & Hex).
    rewrite Htar, Hs1, Hex1 in Hex.
    rewrite Hs', Hex. apply lookup_insert_ne. exact Hne.
Qed.

Lemma update_publishes_build_witness :
  let w := Sample.world ∅ Sample.old_store in
  let w' := (_get_latest Sample.umu_remote Sample.compat Sample.staging
               Sample.umu_files w).1 in
  store w' !! "UMU-Proton-9.0" = Some Dir
  /\ tmp w' !! "UMU-Proton-9.0.tar.gz" = None
  /\ store w' !! "UMU-Latest" = Some (Link "UMU-Proton-9.0").
Proof.
  intros w w'.
  destruct (update_publishes_build Sample.umu_remote Sample.compat
              Sample.staging Sample.umu_files "UMU-Proton-9.0"
              "https://github.com/umu/9.0.tar.gz" w w')
    as (_ & Hbuild & Hstaging & Halias & _).
  - reflexivity.
  - reflexivity.
  - reflexivity.
  - intros bytes. reflexivity.
  - vm_compute. reflexivity.
  - split; [exact Hbuild|]. split; [exact Hstaging|]. apply Halias. reflexivity.
Defined.

(** * Further properties of umu_proton.py *)

(** ** The release client *)

(** X1.  An asset qualifies, as [qualifies] has it from lines 105-117,
    when its name and its download URL are non-empty and the name ends
    with ["sum"] (whatever it starts with) or ends with ["tar.gz"] and
    starts with [UMU-Proton] or [GE-Proton].  When the index answers with
    status 200 and the first release that has assets holds at least two
    such assets, [_fetch_releases] returns the first two of them, in the
    order of the index, after one network call; later assets and later
    releases play no part. *)
Theorem fetch_releases_first_two (net : Remote) (w : World) (rs : list release) :
  release_index net (index_url w) = Ret (200, Ret rs) ->
  (2 <= length (qualifying rs))%nat ->
  _fetch_releases net w
  = (emit (Urlopen (index_url w)) w, Ret (asset_pair <$> take 2 (qualifying rs)))
  /\ forall a, a ∈ take 2 (qualifying rs) -> qualifies a = true.
Proof.
  intros Hanswer Hlen. split.
  - rewrite fetch_releases_unfold, Hanswer. simpl.
    rewrite scan_releases_take, <- fmap_take.
    rewrite length_fmap, length_take, Nat.min_l by exact Hlen. reflexivity.
  - intros a Ha. apply elem_of_take in Ha as (i & Ha & _).
    apply list_elem_of_lookup_2 in Ha. unfold qualifying in Ha.
    apply list_elem_of_filter in Ha as [Hq _]. apply Is_true_true, Hq.
Qed.

Lemma fetch_releases_first_two_witness :
  _fetch_releases Sample.umu_remote (Sample.world ∅ ∅)
  = (emit (Urlopen (index_url (Sample.world ∅ ∅))) (Sample.world ∅ ∅),
     Ret Sample.umu_files).
Proof.
  apply (proj1 (fetch_releases_first_two Sample.umu_remote (Sample.world ∅ ∅)
                  [Release (Some [Sample.umu_sum; Sample.umu_tar])]
                  eq_refl ltac:(vm_compute; lia))).
Defined.

(** ** The archive fetcher *)

(** X2.  A URL that does not start with [https:] is refused before
    anything else happens: the world is exactly as it was, so no request
    has been sent, and this holds whatever follows the two entries. *)
Theorem fetch_proton_refuses_insecure_url (net : Remote) (tmpd : string)
    (hash hash_url proton url : string)
    (rest : list (string * string)) (w : World) :
  Py.startswith url "https:" && Py.startswith hash_url "https:" = false ->
  _fetch_proton net tmpd ((hash, hash_url) :: (proton, url) :: rest) w
  = (w, Raise (ValueError (SchemeNotHttps [url; hash_url]))).
Proof.
  intros H. unfold _fetch_proton, bind, getitem, raise. simpl.
  destruct (Py.startswith url "https:"), (Py.startswith hash_url "https:");
    try discriminate; reflexivity.
Qed.

(** X3.  When the digest file is answered with a status other than 200,
    the fetch fails with [HTTPException] after that single request: the
    archive is not requested and the helper is not run. *)
Theorem fetch_proton_digest_status (net : Remote) (tmpd : string)
    (hash hash_url proton url : string)
    (w : World) (status : Z) (body : result string) :
  Py.startswith url "https:" && Py.startswith hash_url "https:" = true ->
  digest_file net hash_url = Ret (status, body) ->
  status <> 200 ->
  _fetch_proton net tmpd [(hash, hash_url); (proton, url)] w
  = (emit (Urlopen hash_url) w, Raise (HTTPException status)).
Proof.
  intros Hs Hd Hne. unfold _fetch_proton, bind, getitem, raise, modify, lift.
  simpl. apply andb_true_iff in Hs as [-> ->]. simpl. rewrite Hd.
  destruct (Z.eqb_spec status 200); [contradiction|]. reflexivity.
Qed.

(** X4.  Whatever it is given and however it ends, [_fetch_proton] leaves
    the store, the caller's dictionary and the process environment as
    they were: it only writes to the staging directory (in particular it
    does not set [PROTONPATH]). *)
Theorem fetch_proton_only_stages (net : Remote) (tmpd : string)
    (files : list (string * string)) (w : World) :
  let w' := (_fetch_proton net tmpd files w).1 in
  store w' = store w /\ env w' = env w /\ environ w' = environ w.
Proof.
  repeat split.
  - apply (fetch_proton_keeps net tmpd store); reflexivity.
  - apply (fetch_proton_keeps net tmpd env); reflexivity.
  - apply (fetch_proton_keeps net tmpd environ); reflexivity.
Qed.

Lemma read_loop_same_bytes (reads : list (result (list byte)))
    (file hash : list byte) :
  exists p, (read_loop reads file hash).1 = (file ++ p, hash ++ p).
Proof.
  revert file hash.
  induction reads as [|[[|b chunk]|e] rest IH]; intros file hash; simpl;
    try (exists []; rewrite !app_nil_r; reflexivity).
  destruct (IH (file ++ b :: chunk) (update hash (b :: chunk))) as [p Hp].
  exists ((b :: chunk) ++ p). rewrite Hp. unfold update.
  rewrite <- !app_assoc. reflexivity.
Qed.

Lemma download_inv (net : Remote) (proton url digest : string) (w w' : World)
    (r : result unit) :
  download net proton url digest w = (w', r) ->
  (exists e, archive net url = Raise e /\ r = Raise e
             /\ w' = emit (Urlopen url) w)
  \/ (exists status reads, archive net url = Ret (status, reads)
        /\ status <> 200 /\ r = Raise (HTTPException status)
        /\ w' = emit (Urlopen url) w)
  \/ (exists reads p,
        archive net url = Ret (200, reads)
        /\ tmp w' !! proton = Some (default [] (tmp w !! proton) ++ p)
        /\ (forall n, n <> proton -> tmp w' !! n = tmp w !! n)
        /\ store w' = store w
        /\ match r with
           | Ret _ => Sha512.hexdigest p = digest
                      /\ trace w' = Sha512OK proton :: Urlopen url :: trace w
           | Raise _ => trace w' = Urlopen url :: trace w
           end).
Proof.
  unfold download, bind, modify, lift, gets, raise. simpl.
  destruct (archive net url) as [[status reads]|e] eqn:Ha.
  - destruct (Z.eqb_spec status 200) as [->|Hne]; simpl.
    + destruct (read_loop_same_bytes reads (default [] (tmp w !! proton)) sha512)
        as [p Hp].
      destruct (read_loop reads _ sha512) as [[file hash] err]. simpl in Hp.
      injection Hp as -> ->. simpl.
      intros H. right; right. exists reads, p. split; [reflexivity|].
      destruct err as [e|].
      * injection H as <- <-. simpl. rewrite lookup_insert_eq.
        repeat split. intros n Hn. apply lookup_insert_ne. congruence.
      * unfold hexdigest in H.
        destruct (String.eqb_spec (Sha512.hexdigest p) digest) as [E|E];
          simpl in H; injection H as <- <-; simpl; rewrite lookup_insert_eq;
          repeat split; try assumption;
          intros n Hn; apply lookup_insert_ne; congruence.
    + intros [= <- <-]. right; left. exists status, reads. auto.
  - intros [= <- <-]. left. exists e. auto.
Qed.

Lemma read_loop_payload (reads : list (result (list byte)))
    (file hash : list byte) :
  (read_loop reads file hash).1 = (file ++ payload reads, hash ++ payload reads).
Proof.
  revert file hash.
  induction reads as [|[[|b chunk]|e] rest IH]; intros file hash; simpl;
    try (rewrite !app_nil_r; reflexivity).
  rewrite IH. unfold update. rewrite <- !app_assoc. reflexivity.
Qed.

(** X5.  Once the archive is answered with status 200, the staging file
    exists when [download] is over, however it ends, and holds what it
    held before followed by the chunks read, up to the first empty chunk
    or the first read that raises: the file is appended to, never
    truncated, and a failed read or a mismatch leaves it there.  No other
    file of the staging directory changes. *)
Theorem download_appends_to_staging (net : Remote) (proton url digest : string)
    (w : World)
    (reads : list (result (list byte))) :
  archive net url = Ret (200, reads) ->
  let w' := (download net proton url digest w).1 in
  tmp w' !! proton = Some (default [] (tmp w !! proton) ++ payload reads)
  /\ (forall n, n <> proton -> tmp w' !! n = tmp w !! n).
Proof.
  intros Ha w'. subst w'.
  unfold download, bind, modify, lift, gets, raise. simpl.
  rewrite Ha. simpl.
  pose proof (read_loop_payload reads (default [] (tmp w !! proton)) sha512) as Hp.
  destruct (read_loop reads _ sha512) as [[file hash] err]. simpl in Hp.
  injection Hp as -> ->.
  destruct err as [e|]; simpl.
  - rewrite lookup_insert_eq. split; [reflexivity|].
    intros n Hn. apply lookup_insert_ne. congruence.
  - destruct (negb _); simpl; rewrite lookup_insert_eq;
      (split; [reflexivity|]); intros n Hn; apply lookup_insert_ne; congruence.
Qed.

Lemma fetch_proton_refuses_insecure_url_witness :
  _fetch_proton Sample.umu_remote Sample.staging Sample.insecure_files
    (Sample.world ∅ ∅)
  = (Sample.world ∅ ∅,
     Raise (ValueError (SchemeNotHttps
              ["http://github.com/umu/9.0.tar.gz";
               "https://github.com/umu/9.0.sha512sum"]))).
Proof.
  apply (fetch_proton_refuses_insecure_url Sample.umu_remote Sample.staging
           "UMU-Proton-9.0.sha512sum" "https://github.com/umu/9.0.sha512sum"
           "UMU-Proton-9.0.tar.gz" "http://github.com/umu/9.0.tar.gz" []).
  reflexivity.
Defined.

Lemma fetch_proton_digest_status_witness :
  _fetch_proton Sample.digest_204_remote Sample.staging Sample.umu_files
    (Sample.world ∅ ∅)
  = (emit (Urlopen "https://github.com/umu/9.0.sha512sum") (Sample.world ∅ ∅),
     Raise (HTTPException 204)).
Proof.
  apply (fetch_proton_digest_status Sample.digest_204_remote Sample.staging
           "UMU-Proton-9.0.sha512sum" "https://github.com/umu/9.0.sha512sum"
           "UMU-Proton-9.0.tar.gz" "https://github.com/umu/9.0.tar.gz"
           (Sample.world ∅ ∅) 204 (Ret "")); [reflexivity|reflexivity|lia].
Defined.

Lemma download_appends_to_staging_witness :
  tmp (download Sample.interrupted_remote "UMU-Proton-9.0.tar.gz"
         "https://github.com/umu/9.0.tar.gz" Sample.abc_digest
         (Sample.staged "UMU-Proton-9.0.tar.gz" Sample.tampered
            (Sample.world ∅ ∅))).1 !! "UMU-Proton-9.0.tar.gz"
  = Some (Sample.tampered ++ Sample.abc).
Proof.
  apply (proj1 (download_appends_to_staging Sample.interrupted_remote
           "UMU-Proton-9.0.tar.gz" "https://github.com/umu/9.0.tar.gz"
           Sample.abc_digest
           (Sample.staged "UMU-Proton-9.0.tar.gz" Sample.tampered (Sample.world ∅ ∅))
           [Ret Sample.abc; Raise KeyboardInterrupt] eq_refl)).
Defined.

(** The fetch in built-in mode: the digest file, then [download]. *)
Lemma fetch_proton_builtin (net : Remote) (tmpd : string)
    (hash hash_url proton url : string) (w : World) :
  Py.startswith url "https:" && Py.startswith hash_url "https:" = true ->
  Py.truthy (environ w !! "UMU_ZENITY") = false ->
  _fetch_proton net tmpd [(hash, hash_url); (proton, url)] w =
  match digest_file net hash_url with
  | Raise e => (emit (Urlopen hash_url) w, Raise e)
  | Ret (status, body) =>
      if status =? 200 then
        match body with
        | Raise e => (emit (Urlopen hash_url) w, Raise e)
        | Ret text =>
            download net proton url (parse_digest text proton)
              (emit (Urlopen hash_url) w)
        end
      else (emit (Urlopen hash_url) w, Raise (HTTPException status))
  end.
Proof.
  intros Hs Hz.
  assert (Hone : bool_decide (environ w !! "UMU_ZENITY" = Some "1") = false).
  { apply bool_decide_eq_false_2. intros E. rewrite E in Hz. discriminate. }
  unfold _fetch_proton, bind, getitem, raise, modify, lift, gets, ret.
  simpl. apply andb_true_iff in Hs as [-> ->]. simpl.
  destruct (digest_file net hash_url) as [[status body]|e]; [|reflexivity].
  destruct (status =? 200); simpl; [|reflexivity].
  destruct body as [text|e]; simpl; [|reflexivity].
  rewrite Hone. simpl.
  fold (Py.truthy (environ w !! "UMU_ZENITY")). rewrite Hz. simpl.
  destruct (download net proton url _ _) as [w1 [[]|e]]; reflexivity.
Qed.

(** A returning fetch in built-in mode ends with a returning [download]. *)
Lemma fetch_proton_builtin_inv (net : Remote) (tmpd : string)
    (hash hash_url proton url : string) (w w' : World) :
  Py.truthy (environ w !! "UMU_ZENITY") = false ->
  _fetch_proton net tmpd [(hash, hash_url); (proton, url)] w = (w', Ret tt) ->
  exists text,
    digest_file net hash_url = Ret (200, Ret text)
    /\ download net proton url (parse_digest text proton)
         (emit (Urlopen hash_url) w) = (w', Ret tt).
Proof.
  intros Hz Hrun.
  destruct (Py.startswith url "https:" && Py.startswith hash_url "https:") eqn:Hs.
  2: { exfalso. revert Hrun. unfold _fetch_proton, bind, getitem, raise. simpl.
       destruct (Py.startswith url "https:"), (Py.startswith hash_url "https:");
         discriminate. }
  rewrite (fetch_proton_builtin net tmpd hash hash_url proton url w Hs Hz) in Hrun.
  destruct (digest_file net hash_url) as [[status body]|e]; [|discriminate].
  destruct (Z.eqb_spec status 200) as [->|Hne]; [|discriminate].
  destruct body as [text|e]; [|discriminate].
  exists text. auto.
Qed.

(** X6.  In built-in mode (no [UMU_ZENITY]), with no file of that name in
    the staging directory beforehand, a fetch that returns has left there a
    file whose SHA-512 digest is the one that the digest file publishes for
    the archive, after exactly two requests. *)
Theorem fetch_proton_builtin_verified (net : Remote) (tmpd : string)
    (hash hash_url proton url : string) (w w' : World) :
  Py.truthy (environ w !! "UMU_ZENITY") = false ->
  tmp w !! proton = None ->
  _fetch_proton net tmpd [(hash, hash_url); (proton, url)] w = (w', Ret tt) ->
  exists text bytes,
    digest_file net hash_url = Ret (200, Ret text)
    /\ tmp w' !! proton = Some bytes
    /\ Sha512.hexdigest bytes = parse_digest text proton
    /\ trace w' = [Sha512OK proton; Urlopen url; Urlopen hash_url] ++ trace w.
Proof.
  intros Hz Hfresh Hrun.
  apply (fetch_proton_builtin_inv _ _ _ _ _ _ _ _ Hz) in Hrun as (text & Hd & Hrun).
  apply download_inv in Hrun
    as [(e & _ & He & _)|[(st & rd & _ & _ & He & _)|(reads & p & _ & Hp & _ & _ & Hdg & Ht)]];
    try discriminate.
  exists text, p. simpl in Hp. rewrite Hfresh in Hp. simpl in Hp.
  repeat split; assumption.
Qed.

Lemma fetch_proton_builtin_verified_witness :
  exists text bytes,
    digest_file Sample.umu_remote "https://github.com/umu/9.0.sha512sum"
    = Ret (200, Ret text)
    /\ tmp (_fetch_proton Sample.umu_remote Sample.staging Sample.umu_files
              (Sample.world ∅ ∅)).1 !! "UMU-Proton-9.0.tar.gz" = Some bytes
    /\ Sha512.hexdigest bytes = parse_digest text "UMU-Proton-9.0.tar.gz".
Proof.
  destruct (fetch_proton_builtin_verified Sample.umu_remote Sample.staging
              "UMU-Proton-9.0.sha512sum" "https://github.com/umu/9.0.sha512sum"
              "UMU-Proton-9.0.tar.gz" "https://github.com/umu/9.0.tar.gz"
              (Sample.world ∅ ∅)
              (_fetch_proton Sample.umu_remote Sample.staging Sample.umu_files
                 (Sample.world ∅ ∅)).1)
    as (text & bytes & H1 & H2 & H3 & _).
  - reflexivity.
  - reflexivity.
  - vm_compute. reflexivity.
  - exists text, bytes. auto.
Defined.

(** With [UMU_ZENITY] set to a non-empty value other than ["1"], the fetch
    requests the digest file and nothing else. *)
Lemma fetch_proton_other_zenity_value (net : Remote) (tmpd : string)
    (hash hash_url proton url v text : string) (w : World) :
  Py.startswith url "https:" && Py.startswith hash_url "https:" = true ->
  environ w !! "UMU_ZENITY" = Some v -> v <> "1" -> v <> "" ->
  digest_file net hash_url = Ret (200, Ret text) ->
  _fetch_proton net tmpd [(hash, hash_url); (proton, url)] w
  = (emit (Urlopen hash_url) w, Ret tt).
Proof.
  intros Hs Hv H1 H0 Hd.
  unfold _fetch_proton, bind, getitem, raise, modify, lift, gets, ret.
  simpl. apply andb_true_iff in Hs as [-> ->]. simpl. rewrite Hd. simpl.
  rewrite Hv. rewrite bool_decide_eq_false_2 by congruence. simpl.
  destruct v; [contradiction|]. rewrite Hv. reflexivity.
Qed.

(** ** The store updater *)

Lemma cleanup_inv (dir tmpd tarball proton : string) (w w' : World) :
  _cleanup dir tmpd tarball proton w = (w', Ret tt) ->
  tmp w' !! tarball = None
  /\ is_dir (store w') proton = false
  /\ (forall k, k <> proton -> store w' !! k = store w !! k).
Proof.
  unfold _cleanup.
  change (bind (gets ?f) ?k w) with (k (f w) w). cbv beta.
  intros H. apply bind_ret_inv in H as ([] & w1 & H1 & H).
  assert (Hw1 : tmp w1 !! tarball = None /\ store w1 = store w).
  { destruct (bool_decide (is_Some (tmp w !! tarball))) eqn:Hb.
    - unfold unlink_tmp in H1. destruct (tmp w !! tarball).
      + injection H1 as <-. simpl. split; [apply lookup_delete_eq|reflexivity].
      + injection H1 as <-. apply bool_decide_eq_true_1 in Hb as [x Hx]. discriminate.
    - injection H1 as <-. apply bool_decide_eq_false_1 in Hb.
      split; [|reflexivity].
      destruct (tmp w !! tarball) eqn:E; [|reflexivity].
      exfalso. apply Hb. eauto. }
  destruct Hw1 as [Htmp Hstore].
  change (bind (gets ?f) ?k w1) with (k (f w1) w1) in H. cbv beta in H.
  destruct (is_dir (store w1) proton) eqn:Hdir.
  - unfold rmtree in H. unfold is_dir in Hdir.
    destruct (store w1 !! proton) as [[| |t]|] eqn:E; try discriminate.
    injection H as <-. simpl. split; [exact Htmp|]. split.
    + unfold is_dir. rewrite lookup_delete_eq. reflexivity.
    + intros k Hk. rewrite lookup_delete_ne by congruence.
      rewrite Hstore. reflexivity.
  - injection H as <-. rewrite <- Hstore. auto.
Qed.

(** X7.  An interrupt during the fetch (either vendor) or, for GE-Proton,
    anywhere in the attempt: in both cases nothing of the attempt runs
    besides the calling thread.  When [_get_latest] then returns, it
    returns [None], the staging directory holds no file under the archive
    name and the store holds no directory under the build name; every
    other entry of the store is as the interrupted attempt left it. *)
Theorem interrupted_attempt_is_cleaned (net : Remote) (dir tmpd : string)
    (files : list (string * string)) (tarball url : string)
    (w w1 w' : World) (o : option unit) :
  files !! 1%nat = Some (tarball, url) ->
  (is_dir (store w) (proton_of tarball) = false
   /\ _fetch_proton net tmpd files w = (w1, Raise KeyboardInterrupt))
  \/ (version_of w = "GE-Proton"
      /\ get_latest_body net dir tmpd files w = (w1, Raise KeyboardInterrupt)) ->
  _get_latest net dir tmpd files w = (w', Ret o) ->
  o = None
  /\ tmp w' !! tarball = None
  /\ is_dir (store w') (proton_of tarball) = false
  /\ (forall k, k <> proton_of tarball -> store w' !! k = store w1 !! k).
Proof.
  intros Hsecond Hint.
  assert (Hbody : get_latest_body net dir tmpd files w
                  = (w1, Raise KeyboardInterrupt)).
  { destruct Hint as [[Hdir Hfetch]|[_ Hbody]]; [|exact Hbody].
    rewrite (body_unfold net dir tmpd files tarball url w Hsecond), Hdir.
    unfold bind at 1. rewrite Hfetch. reflexivity. }
  unfold _get_latest.
  destruct files as [|first rest] eqn:Hf; [discriminate|]. rewrite <- Hf in *.
  unfold try_except. rewrite Hbody. simpl.
  unfold bind at 1, getitem. rewrite Hsecond. simpl.
  intros H. apply bind_ret_inv in H as ([] & w2 & H2 & H).
  injection H as <- <-. fold (proton_of tarball) in H2.
  split; [reflexivity|]. apply (cleanup_inv _ _ _ _ _ _ H2).
Qed.

Lemma interrupted_attempt_is_cleaned_witness :
  let w := Sample.world ∅ Sample.old_store in
  let w' := (_get_latest Sample.interrupted_remote Sample.compat Sample.staging
               Sample.umu_files w).1 in
  tmp w' !! "UMU-Proton-9.0.tar.gz" = None
  /\ is_dir (store w') "UMU-Proton-9.0" = false.
Proof.
  intros w w'.
  destruct (interrupted_attempt_is_cleaned Sample.interrupted_remote
              Sample.compat Sample.staging Sample.umu_files
              "UMU-Proton-9.0.tar.gz" "https://github.com/umu/9.0.tar.gz"
              w (_fetch_proton Sample.interrupted_remote Sample.staging
                   Sample.umu_files w).1 w' None)
    as (_ & Htmp & Hdir & _).
  - reflexivity.
  - left. split; [reflexivity|]. vm_compute. reflexivity.
  - vm_compute. reflexivity.
  - split; assumption.
Defined.

Lemma unlink_tmp_spec (tmpd n : string) (w : World) :
  exists w', unlink_tmp tmpd n w = (w', Ret tt)
             /\ store w' = store w /\ env w' = env w /\ environ w' = environ w
             /\ tmp w' !! n = None.
Proof.
  unfold unlink_tmp. destruct (tmp w !! n) eqn:E; eexists;
    (split; [reflexivity|]); simpl; repeat split;
    [apply lookup_delete_eq | exact E].
Qed.

(** X8.  When the fetch fails with a [ValueError] or an [HTTPException],
    the attempt returns [None] and leaves the store, the caller's
    dictionary and the process environment exactly as they were; after a
    [ValueError] the staging directory holds no file under the archive
    name. *)
Theorem failed_fetch_leaves_store (net : Remote) (dir tmpd : string)
    (files : list (string * string)) (tarball url : string)
    (w w1 : World) (e : exn) :
  files !! 1%nat = Some (tarball, url) ->
  is_dir (store w) (proton_of tarball) = false ->
  _fetch_proton net tmpd files w = (w1, Raise e) ->
  is_ValueError e = true \/ is_HTTPException e = true ->
  let run := _get_latest net dir tmpd files w in
  run.2 = Ret None
  /\ store run.1 = store w /\ env run.1 = env w /\ environ run.1 = environ w
  /\ (is_ValueError e = true -> tmp run.1 !! tarball = None).
Proof.
  intros Hsecond Hdir Hfetch Hclass run.
  assert (Hbody : get_latest_body net dir tmpd files w = (w1, Raise e)).
  { rewrite (body_unfold net dir tmpd files tarball url w Hsecond), Hdir.
    unfold bind at 1. rewrite Hfetch. reflexivity. }
  pose proof (keeps_run store _ _ _ _ (fetch_proton_keeps net tmpd store
                ltac:(reflexivity) ltac:(reflexivity) files) Hfetch) as Hs.
  pose proof (keeps_run env _ _ _ _ (fetch_proton_keeps net tmpd env
                ltac:(reflexivity) ltac:(reflexivity) files) Hfetch) as Hd.
  pose proof (keeps_run environ _ _ _ _ (fetch_proton_keeps net tmpd environ
                ltac:(reflexivity) ltac:(reflexivity) files) Hfetch) as He.
  subst run. unfold _get_latest.
  destruct files as [|first rest] eqn:Hf; [discriminate|]. rewrite <- Hf in *.
  unfold try_except. rewrite Hbody. unfold get_latest_handler.
  destruct (is_ValueError e) eqn:Hv.
  - destruct (unlink_tmp_spec tmpd tarball w1) as (w2 & H2 & Hs2 & Hd2 & He2 & Ht2).
    assert (Hh : (let! second := getitem files 1 in
                  unlink_tmp tmpd second.1 ;;; ret None) w1
                 = (w2, Ret (@None unit))).
    { unfold bind at 1, getitem. rewrite Hsecond. simpl.
      rewrite (bind_run _ _ _ _ _ H2). reflexivity. }
    cbv beta iota. rewrite Hh. simpl.
    split; [reflexivity|]. split; [congruence|]. split; [congruence|].
    split; [congruence|]. intros _. exact Ht2.
  - destruct Hclass as [Hc|Hc]; [discriminate|].
    destruct e; try discriminate; simpl;
      (split; [reflexivity|]; split; [exact Hs|]; split; [exact Hd|];
       split; [exact He|]; discriminate).
Qed.

Lemma failed_fetch_leaves_store_witness :
  let w := Sample.world ∅ Sample.old_store in
  let run := _get_latest Sample.digest_204_remote Sample.compat Sample.staging
               Sample.umu_files w in
  run.2 = Ret None /\ store run.1 = store w.
Proof.
  intros w run.
  destruct (failed_fetch_leaves_store Sample.digest_204_remote Sample.compat
              Sample.staging Sample.umu_files "UMU-Proton-9.0.tar.gz"
              "https://github.com/umu/9.0.tar.gz" w
              (emit (Urlopen "https://github.com/umu/9.0.sha512sum") w)
              (HTTPException 204))
    as (Hr & Hs & _).
  - reflexivity.
  - reflexivity.
  - reflexivity.
  - right. reflexivity.
  - split; assumption.
Defined.

(** X9.  With [UMU_ZENITY] set to a non-empty value other than ["1"], the
    fetch requests the digest file and returns without downloading the
    archive by either mode; with no archive in the staging directory, an
    attempt that needs an update then ends with [FileNotFoundError] from
    the extraction, for either vendor, and that error is not one that
    [_get_latest] downgrades. *)
Theorem other_zenity_value_fails_extraction (net : Remote) (dir tmpd : string)
    (hash hash_url tarball url v text : string) (w : World) :
  Py.startswith url "https:" && Py.startswith hash_url "https:" = true ->
  environ w !! "UMU_ZENITY" = Some v -> v <> "1" -> v <> "" ->
  digest_file net hash_url = Ret (200, Ret text) ->
  is_dir (store w) (proton_of tarball) = false ->
  tmp w !! tarball = None ->
  _fetch_proton net tmpd [(hash, hash_url); (tarball, url)] w
  = (emit (Urlopen hash_url) w, Ret tt)
  /\ (_get_latest net dir tmpd [(hash, hash_url); (tarball, url)] w).2
     = Raise FileNotFoundError.
Proof.
  intros Hs Hv H1 H0 Hd Hdir Htmp.
  split; [apply (fetch_proton_other_zenity_value net tmpd hash hash_url tarball
                   url v text w Hs Hv H1 H0 Hd)|].
  unfold _get_latest, try_except.
  rewrite (body_unfold net dir tmpd [(hash, hash_url); (tarball, url)]
             tarball url w eq_refl), Hdir.
  unfold bind at 1.
  rewrite (fetch_proton_other_zenity_value net tmpd hash hash_url tarball url
             v text w Hs Hv H1 H0 Hd).
  set (w0 := emit (Urlopen hash_url) w).
  assert (Hex : _extract_dir net tmpd tarball w0 = (w0, Raise FileNotFoundError)).
  { unfold _extract_dir. simpl. rewrite Htmp. reflexivity. }
  assert (Hfin : (finalize net dir tmpd (version_of w) tarball (proton_of tarball) w0).2
                 = Raise FileNotFoundError).
  { unfold finalize. destruct (String.eqb (version_of w) "UMU-Proton").
    - change (bind (gets ?f) ?k w0) with (k (f w0) w0). cbv beta.
      unfold bind at 1, submit. rewrite Hex.
      unfold bind at 1, submit.
      destruct (_update_proton dir (proton_of tarball) _ w0) as [w2 r2].
      reflexivity.
    - rewrite Hex. reflexivity. }
  unfold bind at 1.
  destruct (finalize net dir tmpd (version_of w) tarball (proton_of tarball) w0)
    as [w2 r2]. simpl in Hfin. subst r2. reflexivity.
Qed.

Lemma other_zenity_value_fails_extraction_witness :
  (_get_latest Sample.umu_remote Sample.compat Sample.staging Sample.umu_files
     (Sample.world (<["UMU_ZENITY" := "0"]> ∅) Sample.old_store)).2
  = Raise FileNotFoundError.
Proof.
  apply (proj2 (other_zenity_value_fails_extraction Sample.umu_remote
           Sample.compat Sample.staging "UMU-Proton-9.0.sha512sum"
           "https://github.com/umu/9.0.sha512sum" "UMU-Proton-9.0.tar.gz"
           "https://github.com/umu/9.0.tar.gz" "0"
           (Sample.abc_digest +:+ "  UMU-Proton-9.0.tar.gz")
           (Sample.world (<["UMU_ZENITY" := "0"]> ∅) Sample.old_store)
           ltac:(reflexivity) ltac:(reflexivity) ltac:(discriminate)
           ltac:(discriminate) ltac:(reflexivity) ltac:(reflexivity)
           ltac:(reflexivity))).
Defined.

(** *** Traces only grow *)
















(** ** Retirement of previous builds *)

(** What the removal loop does to the store, whatever the outcome of the
    single removals. *)
Lemma submit_rmtrees_effect (dir : string) (protons : list string)
    (w w' : World) (futures : list (result unit)) :
  submit_rmtrees dir protons w = (w', Ret futures) ->
  (forall k, store w' !! k = store w !! k
             \/ (store w' !! k = None /\ k ∈ protons /\ store w !! k = Some Dir))
  /\ (forall n, n ∈ protons -> store w !! n = Some Dir -> store w' !! n = None).
Proof.
  revert w futures. induction protons as [|p rest IH]; intros w futures; simpl.
  - intros [= <- _]. split; [auto|]. intros n Hn. inversion Hn.
  - change (bind (gets ?f) ?k w) with (k (f w) w). cbv beta.
    destruct (is_dir (store w) p) eqn:Hdir.
    + intros H.
      apply bind_ret_inv in H as (f & w1 & H1 & H).
      apply bind_ret_inv in H as (fs & w2 & H2 & H).
      injection H as <- _.
      destruct (IH _ _ H2) as [Hsub Hgone].
      unfold submit, rmtree in H1. unfold is_dir in Hdir.
      destruct (store w !! p) as [[| |t]|] eqn:E; try discriminate.
      * injection H1 as <- _. simpl in Hsub, Hgone. split.
        -- intros k. destruct (decide (k = p)) as [->|Hne].
           ++ right. split; [|split; [left|exact E]].
              destruct (Hsub p) as [Hk|[Hk _]]; rewrite Hk; [|reflexivity].
              apply lookup_delete_eq.
           ++ destruct (Hsub k) as [Hk|(Hk & Hin & Hd)].
              ** left. rewrite Hk. apply lookup_delete_ne. congruence.
              ** right. split; [exact Hk|]. split; [right; exact Hin|].
                 rewrite lookup_delete_ne in Hd by congruence. exact Hd.
        -- intros n Hn Hd. destruct (decide (n = p)) as [->|Hne].
           ++ destruct (Hsub p) as [Hk|[Hk _]]; rewrite Hk; [|reflexivity].
              apply lookup_delete_eq.
           ++ apply elem_of_cons in Hn as [->|Hn]; [contradiction|].
              apply Hgone; [exact Hn|].
              rewrite lookup_delete_ne by congruence. exact Hd.
      * injection H1 as <- _. split.
        -- intros k. destruct (Hsub k) as [Hk|(Hk & Hin & Hd)]; [left; exact Hk|].
           right. split; [exact Hk|]. split; [right; exact Hin|exact Hd].
        -- intros n Hn Hd.
           apply elem_of_cons in Hn as [->|Hn]; [congruence|]. auto.
    + intros H. destruct (IH _ _ H) as [Hsub Hgone]. split.
      * intros k. destruct (Hsub k) as [Hk|(Hk & Hin & Hd)]; [left; exact Hk|].
        right. split; [exact Hk|]. split; [right; exact Hin|exact Hd].
      * intros n Hn Hd.
        apply elem_of_cons in Hn as [->|Hn]; [|auto].
        unfold is_dir in Hdir. rewrite Hd in Hdir. discriminate.
Qed.

Lemma join_all_world (futures : list (result unit)) (w : World) :
  (join_all futures w).1 = w.
Proof.
  induction futures as [|[[]|e] rest IH]; simpl; [reflexivity| |reflexivity].
  unfold bind, future_result, lift.
  destruct (join_all rest w) as [w' r] eqn:E. simpl in *.
  exact IH.
Qed.

(** The store after [_update_proton], whatever its outcome. *)
Lemma update_proton_effect (dir proton : string) (protons : list string) (w : World) :
  let w' := (_update_proton dir proton protons w).1 in
  (store w !! "UMU-Latest" = Some Dir -> w' = w)
  /\ (store w !! "UMU-Latest" <> Some Dir ->
      (forall k, store w' !! k = <["UMU-Latest" := Link proton]> (store w) !! k
                 \/ (store w' !! k = None /\ k ∈ protons
                     /\ <["UMU-Latest" := Link proton]> (store w) !! k = Some Dir))
      /\ (forall n, n ∈ protons -> n <> "UMU-Latest" ->
                    store w !! n = Some Dir -> store w' !! n = None)).
Proof.
  unfold _update_proton. split.
  - intros E. unfold bind at 1, unlink_store. rewrite E. reflexivity.
  - intros Halias.
    assert (Hlink : exists w2,
      (unlink_store dir "UMU-Latest" ;;;
       symlink_to dir "UMU-Latest" proton ;;; ret tt) w = (w2, Ret tt)
      /\ store w2 = <["UMU-Latest" := Link proton]> (store w)).
    { unfold bind, unlink_store, symlink_to, ret.
      destruct (store w !! "UMU-Latest") as [[| |t]|] eqn:E; [contradiction|..];
        simpl; rewrite ?lookup_delete_eq, ?E; eexists;
        (split; [reflexivity|]); simpl; rewrite ?insert_delete_eq; reflexivity. }
    destruct Hlink as (w2 & Hrun & Hs2).
    assert (Hshape : forall (k : M unit),
      (unlink_store dir "UMU-Latest" ;;; symlink_to dir "UMU-Latest" proton ;;; k) w
      = k w2).
    { intros k. revert Hrun. unfold bind, unlink_store, symlink_to, ret.
      destruct (store w !! "UMU-Latest") as [[| |t]|] eqn:E; [contradiction|..];
        simpl; rewrite ?lookup_delete_eq, ?E; intros [= <-]; reflexivity. }
    rewrite Hshape. rewrite <- Hs2.
    destruct protons as [|p rest].
    + simpl. split; [auto|]. intros n Hn. inversion Hn.
    + destruct (submit_rmtrees_run dir (p :: rest) w2) as (w3 & fs & E3 & _).
      destruct (submit_rmtrees_effect dir _ _ _ _ E3) as [Hsub Hgone].
      rewrite (bind_run _ _ _ _ _ E3), join_all_world.
      split; [exact Hsub|].
      intros n Hn Hne Hd. apply Hgone; [exact Hn|].
      rewrite Hs2, lookup_insert_ne by congruence. exact Hd.
Qed.

(** X11.  [_update_proton] removes nothing but real directories that are
    listed in [protons]: apart from the alias, every entry of the store is
    either unchanged or was such a directory and is gone; files and
    symbolic links keep their place whatever their names.  If the alias
    name is taken by a real directory, it fails before changing anything. *)
Theorem update_proton_removes_listed_directories (dir proton : string)
    (protons : list string) (w : World) :
  let w' := (_update_proton dir proton protons w).1 in
  (store w !! "UMU-Latest" = Some Dir ->
   _update_proton dir proton protons w = (w, Raise OSError))
  /\ (forall k, k <> "UMU-Latest" ->
        store w' !! k = store w !! k
        \/ (store w' !! k = None /\ k ∈ protons /\ store w !! k = Some Dir)).
Proof.
  intros w'. split.
  - intros E. unfold _update_proton, bind at 1, unlink_store. rewrite E. reflexivity.
  - intros k Hk. subst w'.
    destruct (update_proton_effect dir proton protons w) as [Hdir Hlink].
    assert (Hcases : store w !! "UMU-Latest" = Some Dir
                     \/ store w !! "UMU-Latest" <> Some Dir).
    { destruct (store w !! "UMU-Latest") as [[| |t]|]; auto; right; discriminate. }
    destruct Hcases as [E|E].
    + rewrite (Hdir E). left. reflexivity.
    + destruct (Hlink E) as [Hsub _].
      destruct (Hsub k) as [H|(H & Hin & Hd)];
        rewrite lookup_insert_ne in * by congruence; auto.
Qed.

(** X13.  An incomplete release is not a reason to fall back: when the
    index answers with status 200 and fewer than two qualifying assets,
    [get_umu_proton] ends with [RuntimeError] after the query alone, even
    if the store holds a usable build. *)
Theorem get_umu_proton_incomplete_release (net : Remote) (dir tmpd : string)
    (w : World) (rs : list release) :
  release_index net (index_url w) = Ret (200, Ret rs) ->
  (length (qualifying rs) < 2)%nat ->
  get_umu_proton net dir tmpd w
  = (emit (Urlopen (index_url w)) (set_tmp ∅ w), Raise RuntimeError).
Proof.
  intros Hanswer Hlen. unfold get_umu_proton.
  unfold bind at 1, modify. unfold bind at 1, try_except.
  rewrite fetch_releases_unfold.
  change (index_url (set_tmp ∅ w)) with (index_url w). rewrite Hanswer. simpl.
  rewrite scan_releases_take.
  destruct (Nat.eqb_spec (length (take 2 (asset_pair <$> qualifying rs))) 2) as [E|E].
  - rewrite length_take, length_fmap in E. lia.
  - reflexivity.
Qed.

Lemma get_umu_proton_incomplete_release_witness :
  let w := Sample.world ∅ Sample.three_builds in
  get_umu_proton (Sample.remote [Sample.umu_tar] "" "") Sample.compat
    Sample.staging w
  = (emit (Urlopen (index_url w)) (set_tmp ∅ w), Raise RuntimeError).
Proof.
  intros w.
  apply (get_umu_proton_incomplete_release (Sample.remote [Sample.umu_tar] "" "")
           Sample.compat Sample.staging w [Release (Some [Sample.umu_tar])]).
  - reflexivity.
  - vm_compute. lia.
Defined.

(** X14.  When the index query fails with a [URLError], or is answered
    with a status other than 200, [get_umu_proton] does not fail: it
    returns after that single request, having left the store as it was,
    and what it selects is what the fallback selects in that store. *)
Theorem get_umu_proton_without_index (net : Remote) (dir tmpd : string)
    (w : World) :
  (exists e, release_index net (index_url w) = Raise e /\ is_URLError e = true)
  \/ (exists status body, release_index net (index_url w) = Ret (status, body)
                          /\ status <> 200) ->
  let run := get_umu_proton net dir tmpd w in
  let w1 := emit (Urlopen (index_url w)) (set_tmp ∅ w) in
  run.2 = Ret tt
  /\ trace run.1 = Urlopen (index_url w) :: trace w
  /\ store run.1 = store w
  /\ (match (_get_from_steamcompat dir w1).2 with
      | Ret (Some _) => run.1 = (_get_from_steamcompat dir w1).1
      | _ => run.1 = set_environ "PROTONPATH" "" w1
      end).
Proof.
  intros Hindex run w1. subst run.
  assert (Hfiles : try_except (_fetch_releases net)
                     (fun e => if is_URLError e then Some (ret []) else None)
                     (set_tmp ∅ w) = (w1, Ret [])).
  { unfold try_except. rewrite fetch_releases_unfold.
    change (index_url (set_tmp ∅ w)) with (index_url w).
    destruct Hindex as [(e & -> & He)|(status & body & -> & Hs)]; simpl.
    - rewrite He. reflexivity.
    - destruct (Z.eqb_spec status 200); [contradiction|reflexivity]. }
  assert (Hrun : get_umu_proton net dir tmpd w =
    (let! found := _get_from_steamcompat dir in
     match found with
     | Some _ => ret tt
     | None => modify (set_environ "PROTONPATH" "") ;;; ret tt
     end) w1).
  { unfold get_umu_proton. unfold bind at 1, modify.
    rewrite (bind_run _ _ _ _ _ Hfiles). reflexivity. }
  rewrite Hrun. clear Hrun Hfiles.
  assert (Hfallback :
    _get_from_steamcompat dir w1 = (w1, Ret None)
    \/ exists latest,
         _get_from_steamcompat dir w1
         = (set_env "PROTONPATH" (joinpath dir latest)
              (set_environ "PROTONPATH" (joinpath dir latest) w1), Ret (Some tt))).
  { unfold _get_from_steamcompat.
    change (bind (gets ?f) ?k w1) with (k (f w1) w1). cbv beta.
    change (bind (gets ?f) ?k w1) with (k (f w1) w1). cbv beta.
    destruct (filter _ (glob (store w1))) as [|first others]; [left; reflexivity|].
    right. exists (fold_left later others first).
    unfold bind. rewrite set_protonpath_run. reflexivity. }
  destruct Hfallback as [H|[latest H]]; unfold bind; rewrite !H; simpl;
    repeat split.
Qed.

Lemma get_umu_proton_without_index_witness :
  let w := Sample.world ∅ Sample.three_builds in
  let run := get_umu_proton Sample.offline_remote Sample.compat Sample.staging w in
  run.2 = Ret tt /\ store run.1 = store w.
Proof.
  intros w run.
  destruct (get_umu_proton_without_index Sample.offline_remote Sample.compat
              Sample.staging w) as (Hr & _ & Hs & _).
  - left. exists URLError. split; reflexivity.
  - split; assumption.
Defined.

(** * The launcher: arguments and environment *)

Lemma find_from_none_shift (sub s : string) (i j : Z) :
  0 <= i -> Py.find_from i s sub = -1 -> Py.find_from j s sub = -1.
Proof.
  revert i j. induction s as [|a s IH]; intros i j Hi; cbn [Py.find_from].
  - destruct (Py.startswith "" sub); [lia | reflexivity].
  - destruct (Py.startswith (String a s) sub); [lia |].
    apply IH. lia.
Qed.

Lemma find_space_split (s : string) (i : Z) :
  0 <= i ->
  Py.find_from i s " " = -1
  \/ exists n : nat,
       Py.find_from i s " " = i + Z.of_nat n
       /\ s = Py.take n s +:+ " " +:+ Py.drop (S n) s
       /\ Py.find (Py.take n s) " " = -1.
Proof.
  revert i. induction s as [|b s IH]; intros i Hi.
  - left. reflexivity.
  - cbn [Py.find_from Py.startswith].
    destruct (Ascii.eqb " " b) eqn:Eb.
    + right. exists 0%nat. apply Ascii.eqb_eq in Eb. subst b.
      destruct s; (split; [cbn; lia | split; reflexivity]).
    + replace (false && Py.startswith s "") with false by reflexivity.
      destruct (IH (i + 1)) as [Hn | (n & Hf & Hs & Ht)]; [lia | left; exact Hn |].
      right. exists (S n). split; [lia |]. split.
      * cbn [Py.take Py.drop].
        change (String b s = String b (Py.take n s +:+ " " +:+ Py.drop (S n) s)).
        f_equal. exact Hs.
      * unfold Py.find. cbn [Py.take Py.find_from Py.startswith].
        rewrite Eb.
        replace (false && Py.startswith (Py.take n s) "") with false by reflexivity.
        apply (find_from_none_shift " " _ 0); [lia | exact Ht].
Qed.

Lemma first_file_none (host : Launcher.Host) (l : list string) :
  Launcher.first_file host l = None ->
  Forall (fun a => Launcher.is_file host a = false) l.
Proof.
  induction l as [|a l IH]; intros H; [constructor |].
  cbn [Launcher.first_file] in H.
  destruct (Launcher.is_file host a) eqn:Ea; [discriminate |].
  constructor; [exact Ea | exact (IH H)].
Qed.

Lemma set_exe_inv (host : Launcher.Host) (val : string)
    (env env' : gmap string string) :
  Launcher.set_exe host (Some val) env = (env', Launcher.Ret tt) ->
  exists exe launch : string,
    (val = exe /\ launch = "" \/ val = exe +:+ " " +:+ launch)
    /\ Py.find exe " " = -1
    /\ Launcher.is_file host exe = true
    /\ env' !! "EXE" = Some exe
    /\ (launch <> "" ->
        env' !! "LAUNCHARGS" = Some launch
        /\ Forall (fun a => Launcher.is_file host a = false)
             (Launcher.split_space launch))
    /\ (launch = "" -> env' !! "LAUNCHARGS" = env !! "LAUNCHARGS")
    /\ (forall k, k <> "EXE" -> k <> "LAUNCHARGS" -> env' !! k = env !! k).
Proof.
  unfold Launcher.set_exe. cbv zeta.
  destruct (find_space_split val 0) as [Hn | (n & Hf & Hs & Ht)]; [lia | |].
  - fold (Py.find val " ") in Hn. rewrite Hn.
    change (-1 =? -1) with true. cbn [negb].
    destruct (Launcher.is_file host val) eqn:Ef; cbn [negb]; [| discriminate].
    intros H. injection H as <-.
    exists val, "". split_and!.
    + left. split; reflexivity.
    + exact Hn.
    + exact Ef.
    + apply lookup_insert_eq.
    + intros Hl; contradiction.
    + intros _. rewrite lookup_insert_ne; [reflexivity | discriminate].
    + intros k Hk _. rewrite lookup_insert_ne; [reflexivity | congruence].
  - fold (Py.find val " ") in Hf. rewrite Hf.
    replace (0 + Z.of_nat n =? -1) with false by (symmetry; apply Z.eqb_neq; lia).
    cbn [negb].
    replace (Z.to_nat (0 + Z.of_nat n + 1)) with (S n) by lia.
    unfold Py.slice_to.
    replace (0 + Z.of_nat n <? 0) with false by (symmetry; apply Z.ltb_ge; lia).
    replace (Z.to_nat (0 + Z.of_nat n)) with n by lia.
    destruct (Launcher.is_file host (Py.take n val)) eqn:Ef; cbn [negb];
      [| discriminate].
    destruct (Py.drop (S n) val) as [|c rest] eqn:Ed.
    + intros H. injection H as <-.
      exists (Py.take n val), "". split_and!.
      * right. exact Hs.
      * exact Ht.
      * exact Ef.
      * apply lookup_insert_eq.
      * intros Hl; contradiction.
      * intros _. rewrite lookup_insert_ne; [reflexivity | discriminate].
      * intros k Hk _. rewrite lookup_insert_ne; [reflexivity | congruence].
    + destruct (Launcher.first_file host (Launcher.split_space (String c rest)))
        eqn:Eff; [discriminate |].
      intros H. injection H as <-.
      exists (Py.take n val), (String c rest). split_and!.
      * right. exact Hs.
      * exact Ht.
      * exact Ef.
      * apply lookup_insert_eq.
      * intros _. split.
        -- rewrite lookup_insert_ne; [apply lookup_insert_eq | discriminate].
        -- apply first_file_none. exact Eff.
      * intros Hl; discriminate.
      * intros k Hk Hl.
        rewrite lookup_insert_ne; [| congruence].
        rewrite lookup_insert_ne; [reflexivity | congruence].
Qed.

(** X15 ([parse_args], [set_env]).  Whenever [parse_args] returns a
    namespace without a usable [--config], that namespace has no [--exe]
    and a non-zero [--empty]; [set_env] on it therefore only sets up the
    prefix: the dictionary is returned as it was, [EXE] and [LAUNCHARGS]
    included, and the outcome is that of [_setup_pfx] on
    [env["WINEPREFIX"]]. *)
Theorem parse_args_leaves_exe_unused
    (host : Launcher.Host) (env : gmap string string)
    (args a : Launcher.Namespace) :
  Launcher.parse_args args = Launcher.Ret a ->
  Py.truthy (Launcher.config a) = false ->
  a = args
  /\ Launcher.exe a = None
  /\ Launcher.empty a <> 0
  /\ (Launcher.set_env host env a).1 = env
  /\ (Launcher.set_env host env a).2
     = match env !! "WINEPREFIX" with
       | None => Launcher.Raise (Launcher.KeyError "WINEPREFIX")
       | Some prefix => Launcher._setup_pfx host prefix
       end.
Proof.
  unfold Launcher.parse_args. intros Hp Hc.
  destruct (Py.truthy (Launcher.config args)
            || bool_decide (Launcher.exe args = None)
               && negb (Launcher.empty args =? 0)) eqn:E; [| discriminate].
  injection Hp as <-. rewrite Hc in E. cbn [orb] in E.
  apply andb_prop in E as [He Hz].
  apply bool_decide_eq_true in He.
  apply negb_true_iff, Z.eqb_neq in Hz.
  repeat split; [exact He | exact Hz | |];
    unfold Launcher.set_env;
    (destruct (env !! "WINEPREFIX") as [prefix|]; [| reflexivity]);
    (destruct (Launcher._setup_pfx host prefix) as [[]|e]; [| reflexivity]);
    replace (Launcher.empty args =? 0) with false
      by (symmetry; apply Z.eqb_neq; exact Hz);
    reflexivity.
Qed.

Lemma parse_args_leaves_exe_unused_witness :
  (Launcher.set_env Launcher.sample_host Launcher.sample_environ
     (Launcher.mkNamespace None None (Some "run") 1)).1
  = Launcher.sample_environ.
Proof.
  destruct (parse_args_leaves_exe_unused Launcher.sample_host
              Launcher.sample_environ
              (Launcher.mkNamespace None None (Some "run") 1)
              (Launcher.mkNamespace None None (Some "run") 1))
    as (_ & _ & _ & H & _).
  - reflexivity.
  - reflexivity.
  - exact H.
Defined.

(** X16 ([set_env], lines 103-125).  When no empty prefix is asked for and
    [set_env] returns, the value of [--exe] was cut at its first space:
    [EXE] holds the part before it, which has no space and is a file, and
    the rest, if any, is stored whole in [LAUNCHARGS] and none of its
    space-separated pieces is a file.  With nothing after the executable,
    [LAUNCHARGS] keeps the value it had; no other key changes. *)
Theorem set_env_splits_at_first_space
    (host : Launcher.Host) (env env' : gmap string string)
    (args : Launcher.Namespace) (val : string) :
  Launcher.set_env host env args = (env', Launcher.Ret tt) ->
  Launcher.empty args = 0 ->
  Launcher.exe args = Some val ->
  exists exe launch : string,
    (val = exe /\ launch = "" \/ val = exe +:+ " " +:+ launch)
    /\ Py.find exe " " = -1
    /\ Launcher.is_file host exe = true
    /\ env' !! "EXE" = Some exe
    /\ (launch <> "" ->
        env' !! "LAUNCHARGS" = Some launch
        /\ Forall (fun a => Launcher.is_file host a = false)
             (Launcher.split_space launch))
    /\ (launch = "" -> env' !! "LAUNCHARGS" = env !! "LAUNCHARGS")
    /\ (forall k, k <> "EXE" -> k <> "LAUNCHARGS" -> env' !! k = env !! k).
Proof.
  unfold Launcher.set_env. intros H Hz Hv.
  destruct (env !! "WINEPREFIX") as [prefix|]; [| discriminate].
  destruct (Launcher._setup_pfx host prefix) as [[]|e]; [| discriminate].
  rewrite Hz, Hv in H. cbn [Z.eqb negb] in H.
  exact (set_exe_inv host val env env' H).
Qed.

Lemma set_env_splits_at_first_space_witness :
  exists exe launch : string,
    "/games/game.exe -opengl -w" = exe +:+ " " +:+ launch
    /\ <["EXE" := "/games/game.exe"]>
         (<["LAUNCHARGS" := "-opengl -w"]> Launcher.sample_environ) !! "EXE"
       = Some exe
    /\ launch <> "".
Proof.
  destruct (set_env_splits_at_first_space Launcher.sample_host
              Launcher.sample_environ
              (<["EXE" := "/games/game.exe"]>
                 (<["LAUNCHARGS" := "-opengl -w"]> Launcher.sample_environ))
              (Launcher.mkNamespace None (Some "/games/game.exe -opengl -w") None 0)
              "/games/game.exe -opengl -w")
    as (exe & launch & Hs & _ & _ & He & _).
  - vm_compute. reflexivity.
  - reflexivity.
  - reflexivity.
  - exists exe, launch.
    assert (Hx : exe = "/games/game.exe").
    { rewrite lookup_insert_eq in He. injection He as <-. reflexivity. }
    subst exe. destruct Hs as [[Hs _] | Hs]; [discriminate Hs |].
    split; [exact Hs |]. split; [apply lookup_insert_eq |].
    intros ->. discriminate Hs.
Defined.

(** X17 ([check_env]).  When [check_env] returns, [WINEPREFIX], [GAMEID]
    and [PROTONPATH] of the dictionary are those of the process
    environment, [STEAM_COMPAT_INSTALL_PATH] is the environment's
    [PROTONPATH], the prefix and the Proton path are directories, and every
    other key is as it was. *)
Theorem check_env_copies_environment
    (host : Launcher.Host) (environ env env' : gmap string string) :
  Launcher.check_env host environ env = (env', Launcher.Ret tt) ->
  exists path game proton : string,
    environ !! "WINEPREFIX" = Some path
    /\ environ !! "GAMEID" = Some game
    /\ environ !! "PROTONPATH" = Some proton
    /\ Launcher.is_dir host path = true
    /\ Launcher.is_dir host proton = true
    /\ env' !! "WINEPREFIX" = Some path
    /\ env' !! "GAMEID" = Some game
    /\ env' !! "PROTONPATH" = Some proton
    /\ env' !! "STEAM_COMPAT_INSTALL_PATH" = Some proton
    /\ (forall k,
          k <> "WINEPREFIX" -> k <> "GAMEID" -> k <> "PROTONPATH" ->
          k <> "STEAM_COMPAT_INSTALL_PATH" ->
          env' !! k = env !! k).
Proof.
  unfold Launcher.check_env. intros H.
  destruct (environ !! "WINEPREFIX") as [path|]; [| discriminate].
  destruct (Launcher.is_dir host path) eqn:Ed; cbn [negb] in H; [| discriminate].
  cbv zeta in H.
  destruct (environ !! "GAMEID") as [game|]; [| discriminate].
  destruct (environ !! "PROTONPATH") as [proton|]; [| discriminate].
  destruct (Launcher.is_dir host proton) eqn:Ep; cbn [negb] in H; [| discriminate].
  injection H as <-.
  exists path, game, proton.
  repeat split; try reflexivity; try assumption.
  - repeat (rewrite lookup_insert_ne; [| discriminate]). apply lookup_insert_eq.
  - repeat (rewrite lookup_insert_ne; [| discriminate]). apply lookup_insert_eq.
  - repeat (rewrite lookup_insert_ne; [| discriminate]). apply lookup_insert_eq.
  - apply lookup_insert_eq.
  - intros k H1 H2 H3 H4.
    repeat (rewrite lookup_insert_ne; [| congruence]). reflexivity.
Qed.

Lemma check_env_copies_environment_witness :
  exists path game proton : string,
    Launcher.sample_environ !! "WINEPREFIX" = Some path
    /\ Launcher.sample_environ !! "GAMEID" = Some game
    /\ Launcher.sample_environ !! "PROTONPATH" = Some proton
    /\ Launcher.is_dir Launcher.sample_host proton = true.
Proof.
  destruct (check_env_copies_environment Launcher.sample_host
              Launcher.sample_environ ∅
              (Launcher.check_env Launcher.sample_host
                 Launcher.sample_environ ∅).1)
    as (path & game & proton & H1 & H2 & H3 & _ & H5 & _).
  - vm_compute. reflexivity.
  - exists path, game, proton. repeat split; assumption.
Defined.

(** X18 ([check_env] then [set_env], the order of [main]).  On the
    dictionary that a returning [check_env] leaves, [set_env] finds
    [WINEPREFIX]: it sets up the prefix at the environment's [WINEPREFIX],
    which is a directory.  A failure there is the outcome of [set_env],
    with the dictionary as [check_env] left it; [set_env] returns only if
    the set-up did; and when an empty prefix is asked for, the set-up is
    all that [set_env] does. *)
Theorem set_env_after_check_env
    (host : Launcher.Host) (environ env env1 : gmap string string)
    (args : Launcher.Namespace) :
  Launcher.check_env host environ env = (env1, Launcher.Ret tt) ->
  exists path : string,
    environ !! "WINEPREFIX" = Some path
    /\ Launcher.is_dir host path = true
    /\ (forall e, Launcher._setup_pfx host path = Launcher.Raise e ->
                  Launcher.set_env host env1 args = (env1, Launcher.Raise e))
    /\ ((Launcher.set_env host env1 args).2 = Launcher.Ret tt ->
        Launcher._setup_pfx host path = Launcher.Ret tt)
    /\ (Launcher._setup_pfx host path = Launcher.Ret tt ->
        Launcher.empty args <> 0 ->
        Launcher.set_env host env1 args = (env1, Launcher.Ret tt)).
Proof.
  intros H.
  assert (Hw : exists path, environ !! "WINEPREFIX" = Some path
                            /\ Launcher.is_dir host path = true
                            /\ env1 !! "WINEPREFIX" = Some path).
  { revert H. unfold Launcher.check_env.
    destruct (environ !! "WINEPREFIX") as [path|]; [| discriminate].
    destruct (Launcher.is_dir host path) eqn:Ed; cbn [negb]; [| discriminate].
    cbv zeta.
    destruct (environ !! "GAMEID") as [game|]; [| discriminate].
    destruct (environ !! "PROTONPATH") as [proton|]; [| discriminate].
    destruct (Launcher.is_dir host proton); cbn [negb]; [| discriminate].
    intros H. injection H as <-. exists path.
    split; [reflexivity |]. split; [exact Ed |].
    repeat (rewrite lookup_insert_ne; [| discriminate]). apply lookup_insert_eq. }
  destruct Hw as (path & Hp & Hd & H1).
  exists path. split; [exact Hp |]. split; [exact Hd |].
  split; [| split].
  - intros e He. unfold Launcher.set_env. rewrite H1, He. reflexivity.
  - unfold Launcher.set_env. rewrite H1.
    destruct (Launcher._setup_pfx host path) as [[]|e]; [reflexivity |].
    cbn. discriminate.
  - intros Hs Hz. unfold Launcher.set_env. rewrite H1, Hs.
    replace (Launcher.empty args =? 0) with false
      by (symmetry; apply Z.eqb_neq; exact Hz).
    reflexivity.
Qed.

Lemma set_env_after_check_env_witness :
  exists path : string,
    Launcher.sample_environ !! "WINEPREFIX" = Some path
    /\ Launcher.is_dir Launcher.sample_host path = true.
Proof.
  destruct (set_env_after_check_env Launcher.sample_host
              Launcher.sample_environ ∅
              (Launcher.check_env Launcher.sample_host
                 Launcher.sample_environ ∅).1
              (Launcher.mkNamespace None None None 1))
    as (path & H1 & H2 & _).
  - vm_compute. reflexivity.
  - exists path. split; assumption.
Defined.
